(** * Bucket sub-resource controllers: logging and server side encryption

    A shallow embedding of [pkg/controller/s3/bucket/loggingConfig.go] and of
    the server side encryption client that follows it in the same package.
    Go values are embedded as follows.

    - A pointer [*T] is an [option T]; [nil] is [None].
    - A slice [[]T] is an [option (list T)]: [nil] is [None], and an empty
      slice that is not nil is [Some []].  The two differ under [cmp.Equal].
    - A run time panic (nil dereference, index out of range) is the
      [Panic] outcome; it keeps the state reached when it was raised.
    - Local variables that are mutated, the bucket passed by pointer and the
      remote client are threaded through a state monad. *)

From stdpp Require Import base decidable option list strings.

Open Scope string_scope.
Open Scope list_scope.

(** ** Go run time *)

Inductive panic := nil_dereference | index_out_of_range.

Inductive outcome (A : Type) :=
| Return (a : A)
| Panic (p : panic).
Arguments Return {A} a.
Arguments Panic {A} p.

Definition slice (A : Type) : Type := option (list A).

(** [range] and [len] treat a nil slice as the empty one. *)
Definition elems {A} (s : slice A) : list A := default [] s.
Definition len {A} (s : slice A) : nat := length (elems s).

(** [make([]T, n)]: [n] zero values, never nil. *)
Definition make {A} (zero : A) (n : nat) : slice A := Some (replicate n zero).

(** [append(s, x)]. *)
Definition append {A} (s : slice A) (x : A) : slice A := Some (elems s ++ [x]).

(** The slice of the images; nil stays nil. *)
Definition slice_map {A B} (f : A -> B) (s : slice A) : slice B :=
  match s with
  | Some l => Some (f <$> l)
  | None => None
  end.

(** State and panic monad. *)
Definition ST (St A : Type) : Type := St -> outcome A * St.

#[global] Instance ST_ret {St} : MRet (ST St) :=
  fun A (a : A) s => (Return a, s).

#[global] Instance ST_bind {St} : MBind (ST St) :=
  fun A B (k : A -> ST St B) (m : ST St A) s =>
    match m s with
    | (Return a, s') => k a s'
    | (Panic p, s') => (Panic p, s')
    end.

Definition get {St} : ST St St := fun s => (Return s, s).
Definition put {St} (s : St) : ST St unit := fun _ => (Return tt, s).
Definition modify {St} (f : St -> St) : ST St unit := fun s => (Return tt, f s).
Definition raise {St A} (p : panic) : ST St A := fun s => (Panic p, s).

(** [*p]: dereferencing nil panics. *)
Definition deref {St A} (p : option A) : ST St A :=
  match p with
  | Some a => mret a
  | None => raise nil_dereference
  end.

(** [s[i]] as an expression. *)
Definition index {St A} (s : slice A) (i : nat) : ST St A :=
  match elems s !! i with
  | Some a => mret a
  | None => raise index_out_of_range
  end.

(** [s[i] = x]: the slice after the store. *)
Definition store {St A} (s : slice A) (i : nat) (x : A) : ST St (slice A) :=
  match s with
  | Some l =>
      if decide (i < length l) then mret (Some (<[i:=x]> l))
      else raise index_out_of_range
  | None => raise index_out_of_range
  end.

(** [for i, v := range l { body }], counting from [i]. *)
Fixpoint for_range {St A} (body : nat -> A -> ST St unit) (i : nat) (l : list A)
  : ST St unit :=
  match l with
  | [] => mret tt
  | v :: l' => body i v;; for_range body (S i) l'
  end.

(** Runs a computation on its initial local state and keeps the result. *)
Definition eval {St A} (m : ST St A) (s : St) : outcome A := fst (m s).

(** ** Errors *)

(** The [error] values the clients tell apart: an [awserr.Error] carries a
    code, and [errors.Wrap] adds a message in front of a cause. *)
Inductive error :=
| AwsError (code message : string)
| OtherError (message : string)
| Wrapped (cause : error) (message : string).

#[global] Instance error_eq_dec : EqDecision error.
Proof. solve_decision. Defined.

Definition loggingGetFailed : string := "cannot get Bucket logging configuration".
Definition loggingPutFailed : string := "cannot put Bucket logging configuration".
Definition sseGetFailed : string := "cannot get Bucket encryption configuration".
Definition ssePutFailed : string := "cannot put Bucket encryption configuration".
Definition sseDeleteFailed : string := "cannot delete Bucket encryption configuration".

(** ** API types *)

(** Modelled from the spec: the declarations of [apis/s3/v1beta1] are
    missing.  They hold the desired state kept in the bucket's spec; the
    fields and their types are the ones the two clients read and write
    (a field passed where a pointer is expected is optional, a field built
    from a composite literal is held by value). *)
Module v1beta1.

Module TargetGrantee.
Record t := mk {
      DisplayName : option string;
      EmailAddress : option string;
      ID : option string;
      Type_ : string;
      URI : option string }.
#[global] Instance eq_dec : EqDecision t.
Proof. solve_decision. Defined.
Definition zero : t := mk None None None EmptyString None.
End TargetGrantee.

Module TargetGrant.
Record t := mk {
      Grantee : TargetGrantee.t;
      Permission : string }.
#[global] Instance eq_dec : EqDecision t.
Proof. solve_decision. Defined.
Definition zero : t := mk TargetGrantee.zero EmptyString.
End TargetGrant.

Module LoggingConfiguration.
Record t := mk {
      TargetBucket : option string;
      TargetGrants : slice TargetGrant.t;
      TargetPrefix : string }.
#[global] Instance eq_dec : EqDecision t.
Proof. solve_decision. Defined.
Definition zero : t := mk None None EmptyString.
End LoggingConfiguration.

Module ServerSideEncryptionByDefault.
Record t := mk {
      KMSMasterKeyID : option string;
      SSEAlgorithm : string }.
#[global] Instance eq_dec : EqDecision t.
Proof. solve_decision. Defined.
Definition zero : t := mk None EmptyString.
End ServerSideEncryptionByDefault.

Module ServerSideEncryptionRule.
Record t := mk {
      ApplyServerSideEncryptionByDefault : ServerSideEncryptionByDefault.t }.
#[global] Instance eq_dec : EqDecision t.
Proof. solve_decision. Defined.
Definition zero : t := mk ServerSideEncryptionByDefault.zero.
End ServerSideEncryptionRule.

Module ServerSideEncryptionConfiguration.
Record t := mk {
      Rules : slice ServerSideEncryptionRule.t }.
#[global] Instance eq_dec : EqDecision t.
Proof. solve_decision. Defined.
Definition zero : t := mk None.
End ServerSideEncryptionConfiguration.

(** The part of the bucket the two clients read or write: its external
      name and the two facets of [Spec.ForProvider]. *)
Module Bucket.
Record t := mk {
      ExternalName : string;
      LoggingConfiguration : option LoggingConfiguration.t;
      ServerSideEncryptionConfiguration : option ServerSideEncryptionConfiguration.t }.
#[global] Instance eq_dec : EqDecision t.
Proof. solve_decision. Defined.
End Bucket.

End v1beta1.

(** [aws-sdk-go-v2/service/s3]: the request and response shapes of the
    SDK, with the fields the two clients use. *)
Module awss3.

Module Grantee.
Record t := mk {
      DisplayName : option string;
      EmailAddress : option string;
      ID : option string;
      Type_ : string;
      URI : option string }.
#[global] Instance eq_dec : EqDecision t.
Proof. solve_decision. Defined.
End Grantee.

Module TargetGrant.
Record t := mk {
      Grantee : option Grantee.t;
      Permission : string }.
#[global] Instance eq_dec : EqDecision t.
Proof. solve_decision. Defined.
Definition zero : t := mk None EmptyString.
End TargetGrant.

Module LoggingEnabled.
Record t := mk {
      TargetBucket : option string;
      TargetGrants : slice TargetGrant.t;
      TargetPrefix : option string }.
#[global] Instance eq_dec : EqDecision t.
Proof. solve_decision. Defined.
End LoggingEnabled.

Module BucketLoggingStatus.
Record t := mk { LoggingEnabled : option LoggingEnabled.t }.
#[global] Instance eq_dec : EqDecision t.
Proof. solve_decision. Defined.
End BucketLoggingStatus.

Module GetBucketLoggingInput.
Record t := mk { Bucket : option string }.
#[global] Instance eq_dec : EqDecision t.
Proof. solve_decision. Defined.
End GetBucketLoggingInput.

Module GetBucketLoggingOutput.
Record t := mk { LoggingEnabled : option LoggingEnabled.t }.
#[global] Instance eq_dec : EqDecision t.
Proof. solve_decision. Defined.
End GetBucketLoggingOutput.

(** The response embeds the output by pointer; a field selected through
      a nil embedded pointer panics. *)
Module GetBucketLoggingResponse.
Record t := mk { GetBucketLoggingOutput : option GetBucketLoggingOutput.t }.
#[global] Instance eq_dec : EqDecision t.
Proof. solve_decision. Defined.
End GetBucketLoggingResponse.

Module PutBucketLoggingInput.
Record t := mk {
      Bucket : option string;
      BucketLoggingStatus : option BucketLoggingStatus.t }.
#[global] Instance eq_dec : EqDecision t.
Proof. solve_decision. Defined.
End PutBucketLoggingInput.

Module ServerSideEncryptionByDefault.
Record t := mk {
      KMSMasterKeyID : option string;
      SSEAlgorithm : string }.
#[global] Instance eq_dec : EqDecision t.
Proof. solve_decision. Defined.
End ServerSideEncryptionByDefault.

Module ServerSideEncryptionRule.
Record t := mk {
      ApplyServerSideEncryptionByDefault : option ServerSideEncryptionByDefault.t }.
#[global] Instance eq_dec : EqDecision t.
Proof. solve_decision. Defined.
Definition zero : t := mk None.
End ServerSideEncryptionRule.

Module ServerSideEncryptionConfiguration.
Record t := mk { Rules : slice ServerSideEncryptionRule.t }.
#[global] Instance eq_dec : EqDecision t.
Proof. solve_decision. Defined.
End ServerSideEncryptionConfiguration.

Module GetBucketEncryptionInput.
Record t := mk { Bucket : option string }.
#[global] Instance eq_dec : EqDecision t.
Proof. solve_decision. Defined.
End GetBucketEncryptionInput.

Module GetBucketEncryptionOutput.
Record t := mk {
      ServerSideEncryptionConfiguration : option ServerSideEncryptionConfiguration.t }.
#[global] Instance eq_dec : EqDecision t.
Proof. solve_decision. Defined.
End GetBucketEncryptionOutput.

Module GetBucketEncryptionResponse.
Record t := mk { GetBucketEncryptionOutput : option GetBucketEncryptionOutput.t }.
#[global] Instance eq_dec : EqDecision t.
Proof. solve_decision. Defined.
End GetBucketEncryptionResponse.

Module PutBucketEncryptionInput.
Record t := mk {
      Bucket : option string;
      ServerSideEncryptionConfiguration : option ServerSideEncryptionConfiguration.t }.
#[global] Instance eq_dec : EqDecision t.
Proof. solve_decision. Defined.
End PutBucketEncryptionInput.

Module DeleteBucketEncryptionInput.
Record t := mk { Bucket : option string }.
#[global] Instance eq_dec : EqDecision t.
Proof. solve_decision. Defined.
End DeleteBucketEncryptionInput.

End awss3.

(** ** Helper packages

    The helpers below live outside the two controller files.  Each is
    embedded by its contract, which the call sites rely on. *)

(** [pkg/clients]. *)
Module awsclient.

(** Modelled from the spec: [awsclient.String] of [pkg/clients] is missing;
    it renders a Go string as the optional string of the remote shape and
    leaves the empty string unset.  Both projectors of the logging facet
    render the prefix through it, and no statement below depends on what it
    does with the empty string. *)
Definition String (v : string) : option string :=
  if decide (v = EmptyString) then None else Some v.

(** Modelled from the spec: [awsclient.StringValue] of [pkg/clients] is
    missing; an unset optional string reads as the empty string. *)
Definition StringValue (v : option string) : string := default EmptyString v.

(** Modelled from the spec: [awsclient.LateInitializeStringPtr] of
    [pkg/clients] is missing; a field that is unset takes the remote value,
    a field that is set is kept. *)
Definition LateInitializeStringPtr (in_ from : option string) : option string :=
  match in_ with
  | Some _ => in_
  | None => from
  end.

(** Modelled from the spec: [awsclient.LateInitializeString] of
    [pkg/clients] is missing; the empty string is the unset value and takes
    the remote value when there is one. *)
Definition LateInitializeString (in_ : string) (from : option string) : string :=
  match from with
  | Some v => if decide (in_ = EmptyString) then v else in_
  | None => in_
  end.

(** Modelled from the spec: [awsclient.Wrap] of [pkg/clients] is missing; it
    tags an error with the facet's message and passes nil through. *)
Definition Wrap (err : option error) (msg : string) : option error :=
  match err with
  | Some e => Some (Wrapped e msg)
  | None => None
  end.

End awsclient.

(** [pkg/clients/s3]. *)
Module s3.

Definition SSEErrCode : string := "ServerSideEncryptionConfigurationNotFoundError".

(** Modelled from the spec: [s3.SSEConfigurationNotFound] of
    [pkg/clients/s3] is missing; it recognises the remote's "not configured"
    condition, an [awserr.Error] with the code above. *)
Definition SSEConfigurationNotFound (err : error) : bool :=
  match err with
  | AwsError code _ => bool_decide (code = SSEErrCode)
  | _ => false
  end.

End s3.

(** [crossplane-runtime/pkg/resource]. *)
Module resource.

(** [resource.Ignore] returns nil for an error the predicate accepts and
    the error itself otherwise. *)
Definition Ignore (is_ : error -> bool) (err : error) : option error :=
  if is_ err then None else Some err.

End resource.

(** [crossplane-runtime/pkg/meta]. *)
Module meta.

Definition GetExternalName (b : v1beta1.Bucket.t) : string :=
  v1beta1.Bucket.ExternalName b.

End meta.

(** [go-cmp/cmp]. *)
Module cmp.

(** [cmp.Equal] on two [*awss3.LoggingEnabled]: pointers are equal when both
    are nil or both point to equal values, slices when both are nil or both
    are not and their elements are pairwise equal.  The ignored types
    ([xpv1.Reference], [xpv1.Selector]) do not occur in the remote shape. *)
Definition Equal (x y : option awss3.LoggingEnabled.t) : bool :=
  bool_decide (x = y).

End cmp.

(** ** The controller contract *)

(** Modelled from the spec: the declaration of [ResourceStatus] is missing;
    the outcomes of an observation are exactly three and mutually
    exclusive. *)
Inductive ResourceStatus := Updated | NeedsUpdate | NeedsDeletion.

#[global] Instance ResourceStatus_eq_dec : EqDecision ResourceStatus.
Proof. solve_decision. Defined.

(** The requests a client is asked to send. *)
Inductive Request :=
| GetBucketLogging (input : awss3.GetBucketLoggingInput.t)
| PutBucketLogging (input : awss3.PutBucketLoggingInput.t)
| GetBucketEncryption (input : awss3.GetBucketEncryptionInput.t)
| PutBucketEncryption (input : awss3.PutBucketEncryptionInput.t)
| DeleteBucketEncryption (input : awss3.DeleteBucketEncryptionInput.t).

#[global] Instance Request_eq_dec : EqDecision Request.
Proof. solve_decision. Defined.

Definition is_write (r : Request) : bool :=
  match r with
  | PutBucketLogging _ | PutBucketEncryption _ | DeleteBucketEncryption _ => true
  | _ => false
  end.

(** [s3.BucketClient]: building a request and sending it, on a client whose
    state has type [C].  A read answers with an error or with a response;
    the response of a write is dropped by every caller. *)
Class BucketClient (C : Type) := {
  GetBucketLoggingRequest :
    awss3.GetBucketLoggingInput.t -> C ->
    (error + awss3.GetBucketLoggingResponse.t) * C;
  PutBucketLoggingRequest :
    awss3.PutBucketLoggingInput.t -> C -> option error * C;
  GetBucketEncryptionRequest :
    awss3.GetBucketEncryptionInput.t -> C ->
    (error + awss3.GetBucketEncryptionResponse.t) * C;
  PutBucketEncryptionRequest :
    awss3.PutBucketEncryptionInput.t -> C -> option error * C;
  DeleteBucketEncryptionRequest :
    awss3.DeleteBucketEncryptionInput.t -> C -> option error * C
}.

(** What an operation of a facet client can touch: the bucket it is handed
    by pointer, the remote client, the requests sent so far and the debug
    lines written to the logger. *)
Record World (C : Type) := mkWorld {
  bucket : v1beta1.Bucket.t;
  client : C;
  requests : list Request;
  debug_log : list string
}.
Arguments mkWorld {C}.
Arguments bucket {C}.
Arguments client {C}.
Arguments requests {C}.
Arguments debug_log {C}.

Definition lift {St A} (o : outcome A) : ST St A := fun s => (o, s).

Section Effects.
Context {C : Type} `{!BucketClient C}.

Definition send {R} (req : Request) (call : C -> R * C) : ST (World C) R :=
  fun w =>
    let '(r, c) := call (client w) in
    (Return r, mkWorld (bucket w) c (requests w ++ [req]) (debug_log w)).

Definition Debug (msg : string) : ST (World C) unit :=
  modify (fun w => mkWorld (bucket w) (client w) (requests w) (debug_log w ++ [msg])).

Definition load_bucket : ST (World C) v1beta1.Bucket.t :=
  fun w => (Return (bucket w), w).

Definition store_bucket (b : v1beta1.Bucket.t) : ST (World C) unit :=
  modify (fun w => mkWorld b (client w) (requests w) (debug_log w)).

End Effects.

(** ** The logging facet *)

(** The remote grant rendered from a desired grant, field by field. *)
Definition remote_grant (g : v1beta1.TargetGrant.t) : awss3.TargetGrant.t :=
  let grantee := v1beta1.TargetGrant.Grantee g in
  awss3.TargetGrant.mk
    (Some (awss3.Grantee.mk
             (v1beta1.TargetGrantee.DisplayName grantee)
             (v1beta1.TargetGrantee.EmailAddress grantee)
             (v1beta1.TargetGrantee.ID grantee)
             (v1beta1.TargetGrantee.Type_ grantee)
             (v1beta1.TargetGrantee.URI grantee)))
    (v1beta1.TargetGrant.Permission g).

(** The desired grant read back from a remote grantee and permission. *)
Definition local_grant (grantee : awss3.Grantee.t) (permission : string)
  : v1beta1.TargetGrant.t :=
  v1beta1.TargetGrant.mk
    (v1beta1.TargetGrantee.mk
       (awss3.Grantee.DisplayName grantee)
       (awss3.Grantee.EmailAddress grantee)
       (awss3.Grantee.ID grantee)
       (awss3.Grantee.Type_ grantee)
       (awss3.Grantee.URI grantee))
    permission.

Definition set_remote_grants (output : awss3.LoggingEnabled.t)
  (grants : slice awss3.TargetGrant.t) : awss3.LoggingEnabled.t :=
  awss3.LoggingEnabled.mk
    (awss3.LoggingEnabled.TargetBucket output)
    grants
    (awss3.LoggingEnabled.TargetPrefix output).

(** [GenerateAWSLogging]: the local variable [output] is the state. *)
Definition GenerateAWSLogging (local : option v1beta1.LoggingConfiguration.t)
  : outcome (option awss3.LoggingEnabled.t) :=
  match local with
  | None => Return None
  | Some local =>
      let grants := v1beta1.LoggingConfiguration.TargetGrants local in
      eval
        ((if decide (grants ≠ None)
          then modify (fun output =>
                 set_remote_grants output (make awss3.TargetGrant.zero (len grants)))
          else mret tt);;
         for_range (fun i _ =>
             g ← index grants i;
             let target := remote_grant g in
             output ← get;
             stored ← store (awss3.LoggingEnabled.TargetGrants output) i target;
             put (set_remote_grants output stored))
           0 (elems grants);;
         output ← get;
         mret (Some output))
        (awss3.LoggingEnabled.mk
           (v1beta1.LoggingConfiguration.TargetBucket local)
           None
           (awsclient.String (v1beta1.LoggingConfiguration.TargetPrefix local)))
  end.

(** [GeneratePutBucketLoggingInput]: the state is the [LoggingEnabled] that
    [bci.BucketLoggingStatus] points to; a nil [config] panics at its first
    field access. *)
Definition GeneratePutBucketLoggingInput (name : string)
  (config : option v1beta1.LoggingConfiguration.t)
  : outcome awss3.PutBucketLoggingInput.t :=
  match config with
  | None => Panic nil_dereference
  | Some config =>
      eval
        (for_range (fun _ grant =>
             modify (fun enabled =>
               set_remote_grants enabled
                 (append (awss3.LoggingEnabled.TargetGrants enabled)
                    (remote_grant grant))))
           0 (elems (v1beta1.LoggingConfiguration.TargetGrants config));;
         enabled ← get;
         mret (awss3.PutBucketLoggingInput.mk
                 (awsclient.String name)
                 (Some (awss3.BucketLoggingStatus.mk (Some enabled)))))
        (awss3.LoggingEnabled.mk
           (v1beta1.LoggingConfiguration.TargetBucket config)
           (make awss3.TargetGrant.zero 0)
           (awsclient.String (v1beta1.LoggingConfiguration.TargetPrefix config)))
  end.

Module LoggingConfigurationClient.
Section Client.
Context {C : Type} `{!BucketClient C}.

Definition load_config : ST (World C) (option v1beta1.LoggingConfiguration.t) :=
  b ← load_bucket;
  mret (v1beta1.Bucket.LoggingConfiguration b).

Definition store_config (config : option v1beta1.LoggingConfiguration.t)
  : ST (World C) unit :=
  b ← load_bucket;
  store_bucket
    (v1beta1.Bucket.mk
       (v1beta1.Bucket.ExternalName b)
       config
       (v1beta1.Bucket.ServerSideEncryptionConfiguration b)).

(** A write through [config], the pointer held in the bucket's spec. *)
Definition update_config
  (f : v1beta1.LoggingConfiguration.t -> v1beta1.LoggingConfiguration.t)
  : ST (World C) unit :=
  config ← load_config;
  config ← deref config;
  store_config (Some (f config)).

Definition get_logging : ST (World C) (error + awss3.GetBucketLoggingResponse.t) :=
  b ← load_bucket;
  let input :=
    awss3.GetBucketLoggingInput.mk (awsclient.String (meta.GetExternalName b)) in
  send (GetBucketLogging input) (GetBucketLoggingRequest input).

(** One turn of the loop of [LateInitialize]:
    [config.TargetGrants[i] = v1beta1.TargetGrant{...}], read from [v]. *)
Definition late_initialize_grant (i : nat) (v : awss3.TargetGrant.t)
  : ST (World C) unit :=
  grantee ← deref (awss3.TargetGrant.Grantee v);
  let grant := local_grant grantee (awss3.TargetGrant.Permission v) in
  config ← load_config;
  config ← deref config;
  stored ← store (v1beta1.LoggingConfiguration.TargetGrants config) i grant;
  update_config (fun c =>
    v1beta1.LoggingConfiguration.mk
      (v1beta1.LoggingConfiguration.TargetBucket c)
      stored
      (v1beta1.LoggingConfiguration.TargetPrefix c)).

Definition LateInitialize : ST (World C) (option error) :=
  r ← get_logging;
  match r with
  | inl err => mret (awsclient.Wrap (Some err) loggingGetFailed)
  | inr external =>
      config ← load_config;
      output ← deref (awss3.GetBucketLoggingResponse.GetBucketLoggingOutput external);
      match awss3.GetBucketLoggingOutput.LoggingEnabled output with
      | None => mret None
      | Some enabled =>
          Debug "called LateInitialize for LoggingConfigurationClient";;
          (if decide (config = None)
           then store_config (Some v1beta1.LoggingConfiguration.zero)
           else mret tt);;
          update_config (fun c =>
            v1beta1.LoggingConfiguration.mk
              (awsclient.LateInitializeStringPtr
                 (v1beta1.LoggingConfiguration.TargetBucket c)
                 (awss3.LoggingEnabled.TargetBucket enabled))
              (v1beta1.LoggingConfiguration.TargetGrants c)
              (v1beta1.LoggingConfiguration.TargetPrefix c));;
          update_config (fun c =>
            v1beta1.LoggingConfiguration.mk
              (v1beta1.LoggingConfiguration.TargetBucket c)
              (v1beta1.LoggingConfiguration.TargetGrants c)
              (awsclient.LateInitializeString
                 (v1beta1.LoggingConfiguration.TargetPrefix c)
                 (awss3.LoggingEnabled.TargetPrefix enabled)));;
          config ← load_config;
          config ← deref config;
          let grants := awss3.LoggingEnabled.TargetGrants enabled in
          (if decide (grants ≠ None
                      ∧ len (v1beta1.LoggingConfiguration.TargetGrants config) = 0)
           then
             update_config (fun c =>
               v1beta1.LoggingConfiguration.mk
                 (v1beta1.LoggingConfiguration.TargetBucket c)
                 (make v1beta1.TargetGrant.zero (len grants))
                 (v1beta1.LoggingConfiguration.TargetPrefix c));;
             for_range late_initialize_grant 0 (elems grants)
           else mret tt);;
          mret None
      end
  end.

Definition Observe : ST (World C) (ResourceStatus * option error) :=
  r ← get_logging;
  match r with
  | inl err => mret (NeedsUpdate, awsclient.Wrap (Some err) loggingGetFailed)
  | inr external =>
      config ← load_config;
      local ← lift (GenerateAWSLogging config);
      output ← deref (awss3.GetBucketLoggingResponse.GetBucketLoggingOutput external);
      if negb (cmp.Equal local (awss3.GetBucketLoggingOutput.LoggingEnabled output))
      then mret (NeedsUpdate, None)
      else mret (Updated, None)
  end.

Definition CreateOrUpdate : ST (World C) (option error) :=
  config ← load_config;
  if decide (config = None) then mret None
  else
    b ← load_bucket;
    input ← lift (GeneratePutBucketLoggingInput (meta.GetExternalName b) config);
    err ← send (PutBucketLogging input) (PutBucketLoggingRequest input);
    mret (awsclient.Wrap err loggingPutFailed).

(** There is no deletion call for the logging configuration. *)
Definition Delete : ST (World C) (option error) := mret None.

End Client.
End LoggingConfigurationClient.

(** ** The server side encryption facet *)

Definition remote_rule (rule : v1beta1.ServerSideEncryptionRule.t)
  : awss3.ServerSideEncryptionRule.t :=
  let by_default := v1beta1.ServerSideEncryptionRule.ApplyServerSideEncryptionByDefault rule in
  awss3.ServerSideEncryptionRule.mk
    (Some (awss3.ServerSideEncryptionByDefault.mk
             (v1beta1.ServerSideEncryptionByDefault.KMSMasterKeyID by_default)
             (v1beta1.ServerSideEncryptionByDefault.SSEAlgorithm by_default))).

Definition local_rule (by_default : awss3.ServerSideEncryptionByDefault.t)
  : v1beta1.ServerSideEncryptionRule.t :=
  v1beta1.ServerSideEncryptionRule.mk
    (v1beta1.ServerSideEncryptionByDefault.mk
       (awss3.ServerSideEncryptionByDefault.KMSMasterKeyID by_default)
       (awss3.ServerSideEncryptionByDefault.SSEAlgorithm by_default)).

(** [GeneratePutBucketEncryptionInput]: the state is the [Rules] slice of
    the configuration [bei] points to. *)
Definition GeneratePutBucketEncryptionInput (name : string)
  (config : option v1beta1.ServerSideEncryptionConfiguration.t)
  : outcome awss3.PutBucketEncryptionInput.t :=
  match config with
  | None => Panic nil_dereference
  | Some config =>
      let desired := v1beta1.ServerSideEncryptionConfiguration.Rules config in
      eval
        (for_range (fun i rule =>
             rules ← get;
             stored ← store rules i (remote_rule rule);
             put stored)
           0 (elems desired);;
         rules ← get;
         mret (awss3.PutBucketEncryptionInput.mk
                 (awsclient.String name)
                 (Some (awss3.ServerSideEncryptionConfiguration.mk rules))))
        (make awss3.ServerSideEncryptionRule.zero (len desired))
  end.

(** [GenerateLocalBucketEncryption]: the state is the local [rules]. *)
Definition GenerateLocalBucketEncryption
  (config : option awss3.ServerSideEncryptionConfiguration.t)
  : outcome (slice v1beta1.ServerSideEncryptionRule.t) :=
  match config with
  | None => Panic nil_dereference
  | Some config =>
      let remote := awss3.ServerSideEncryptionConfiguration.Rules config in
      eval
        (for_range (fun i rule =>
             by_default ←
               deref (awss3.ServerSideEncryptionRule.ApplyServerSideEncryptionByDefault rule);
             rules ← get;
             stored ← store rules i (local_rule by_default);
             put stored)
           0 (elems remote);;
         get)
        (make v1beta1.ServerSideEncryptionRule.zero (len remote))
  end.

(** The loop that closes [Observe]: [Some] is the status of an early
    return, [None] means the loop ran to its end. *)
Fixpoint compare_rules {St} (i : nat)
  (desired : list v1beta1.ServerSideEncryptionRule.t)
  (remote : slice awss3.ServerSideEncryptionRule.t)
  : ST St (option ResourceStatus) :=
  match desired with
  | [] => mret None
  | Rule :: rest =>
      r ← index remote i;
      outputRule ← deref (awss3.ServerSideEncryptionRule.ApplyServerSideEncryptionByDefault r);
      let by_default :=
        v1beta1.ServerSideEncryptionRule.ApplyServerSideEncryptionByDefault Rule in
      if decide (awsclient.StringValue
                   (awss3.ServerSideEncryptionByDefault.KMSMasterKeyID outputRule)
                 ≠ awsclient.StringValue
                     (v1beta1.ServerSideEncryptionByDefault.KMSMasterKeyID by_default))
      then mret (Some NeedsUpdate)
      else if decide (awss3.ServerSideEncryptionByDefault.SSEAlgorithm outputRule
                      ≠ v1beta1.ServerSideEncryptionByDefault.SSEAlgorithm by_default)
      then mret (Some NeedsUpdate)
      else compare_rules (S i) rest remote
  end.

Module SSEConfigurationClient.
Section Client.
Context {C : Type} `{!BucketClient C}.

Definition load_config
  : ST (World C) (option v1beta1.ServerSideEncryptionConfiguration.t) :=
  b ← load_bucket;
  mret (v1beta1.Bucket.ServerSideEncryptionConfiguration b).

Definition store_config (config : option v1beta1.ServerSideEncryptionConfiguration.t)
  : ST (World C) unit :=
  b ← load_bucket;
  store_bucket
    (v1beta1.Bucket.mk
       (v1beta1.Bucket.ExternalName b)
       (v1beta1.Bucket.LoggingConfiguration b)
       config).

Definition get_encryption
  : ST (World C) (error + awss3.GetBucketEncryptionResponse.t) :=
  b ← load_bucket;
  let input :=
    awss3.GetBucketEncryptionInput.mk (awsclient.String (meta.GetExternalName b)) in
  send (GetBucketEncryption input) (GetBucketEncryptionRequest input).

Definition LateInitialize : ST (World C) (option error) :=
  r ← get_encryption;
  match r with
  | inl err =>
      if s3.SSEConfigurationNotFound err then mret None
      else mret (awsclient.Wrap (Some err) sseGetFailed)
  | inr external =>
      match awss3.GetBucketEncryptionResponse.GetBucketEncryptionOutput external with
      | None => mret None
      | Some output =>
          let remote :=
            awss3.GetBucketEncryptionOutput.ServerSideEncryptionConfiguration output in
          if decide (remote = None) then mret None
          else
            Debug "called LateInitialize for SSEConfigurationClient";;
            config ← load_config;
            (if decide (config = None)
             then store_config (Some v1beta1.ServerSideEncryptionConfiguration.zero)
             else mret tt);;
            rules ← lift (GenerateLocalBucketEncryption remote);
            config ← load_config;
            _ ← deref config;
            store_config (Some (v1beta1.ServerSideEncryptionConfiguration.mk rules));;
            mret None
      end
  end.

Definition Observe : ST (World C) (ResourceStatus * option error) :=
  config ← load_config;
  r ← get_encryption;
  match r with
  | inl err =>
      if s3.SSEConfigurationNotFound err && bool_decide (config = None)
      then mret (Updated, None)
      else mret (NeedsUpdate,
                 awsclient.Wrap (resource.Ignore s3.SSEConfigurationNotFound err)
                   sseGetFailed)
  | inr external =>
      output ← deref (awss3.GetBucketEncryptionResponse.GetBucketEncryptionOutput external);
      match awss3.GetBucketEncryptionOutput.ServerSideEncryptionConfiguration output,
            config with
      | Some _, None => mret (NeedsDeletion, None)
      | None, None => mret (Updated, None)
      | None, Some _ => mret (NeedsUpdate, None)
      | Some remote, Some config =>
          let remote_rules := awss3.ServerSideEncryptionConfiguration.Rules remote in
          let rules := v1beta1.ServerSideEncryptionConfiguration.Rules config in
          if decide (len remote_rules ≠ len rules) then mret (NeedsUpdate, None)
          else
            early ← compare_rules 0 (elems rules) remote_rules;
            match early with
            | Some status => mret (status, None)
            | None => mret (Updated, None)
            end
      end
  end.

Definition CreateOrUpdate : ST (World C) (option error) :=
  config ← load_config;
  if decide (config = None) then mret None
  else
    b ← load_bucket;
    input ← lift (GeneratePutBucketEncryptionInput (meta.GetExternalName b) config);
    err ← send (PutBucketEncryption input) (PutBucketEncryptionRequest input);
    mret (awsclient.Wrap err ssePutFailed).

Definition Delete : ST (World C) (option error) :=
  b ← load_bucket;
  let input :=
    awss3.DeleteBucketEncryptionInput.mk (awsclient.String (meta.GetExternalName b)) in
  err ← send (DeleteBucketEncryption input) (DeleteBucketEncryptionRequest input);
  mret (awsclient.Wrap err sseDeleteFailed).

End Client.
End SSEConfigurationClient.

(** ** Two clients *)

(** A client with canned answers, in the way of the package's mock: every
    request of a kind gets the same answer and the client keeps no state. *)
Record MockBucketClient := mkMock {
  MockGetBucketLoggingRequest : error + awss3.GetBucketLoggingResponse.t;
  MockPutBucketLoggingRequest : option error;
  MockGetBucketEncryptionRequest : error + awss3.GetBucketEncryptionResponse.t;
  MockPutBucketEncryptionRequest : option error;
  MockDeleteBucketEncryptionRequest : option error
}.

#[global] Instance MockBucketClient_client : BucketClient MockBucketClient := {|
  GetBucketLoggingRequest _ m := (MockGetBucketLoggingRequest m, m);
  PutBucketLoggingRequest _ m := (MockPutBucketLoggingRequest m, m);
  GetBucketEncryptionRequest _ m := (MockGetBucketEncryptionRequest m, m);
  PutBucketEncryptionRequest _ m := (MockPutBucketEncryptionRequest m, m);
  DeleteBucketEncryptionRequest _ m := (MockDeleteBucketEncryptionRequest m, m)
|}.

(** Modelled from the spec: the remote API is outside the repository.  This
    one stores exactly the shape it is sent and nothing interferes: a
    replace keeps the request's configuration, a delete drops it, a read
    returns what is kept, and reading an encryption configuration that is
    not there fails with the "not configured" error. *)
Record Remote := mkRemote {
  remote_logging : option awss3.LoggingEnabled.t;
  remote_encryption : option awss3.ServerSideEncryptionConfiguration.t
}.

Definition not_configured : error :=
  AwsError s3.SSEErrCode
    "The server side encryption configuration was not found".

#[global] Instance Remote_client : BucketClient Remote := {|
  GetBucketLoggingRequest _ r :=
    (inr (awss3.GetBucketLoggingResponse.mk
            (Some (awss3.GetBucketLoggingOutput.mk (remote_logging r)))), r);
  PutBucketLoggingRequest input r :=
    (None,
     mkRemote
       (awss3.PutBucketLoggingInput.BucketLoggingStatus input
          ≫= awss3.BucketLoggingStatus.LoggingEnabled)
       (remote_encryption r));
  GetBucketEncryptionRequest _ r :=
    (match remote_encryption r with
     | Some config =>
         inr (awss3.GetBucketEncryptionResponse.mk
                (Some (awss3.GetBucketEncryptionOutput.mk (Some config))))
     | None => inl not_configured
     end, r);
  PutBucketEncryptionRequest input r :=
    (None,
     mkRemote (remote_logging r)
       (awss3.PutBucketEncryptionInput.ServerSideEncryptionConfiguration input));
  DeleteBucketEncryptionRequest _ r :=
    (None, mkRemote (remote_logging r) None)
|}.

(** A bucket in front of a client, before any request. *)
Definition world {C} (b : v1beta1.Bucket.t) (c : C) : World C := mkWorld b c [] [].

(** ** Vocabulary of the statements *)

(** The desired rule read back from a remote rule, when the remote rule
    has its default block. *)
Definition local_rule_of (r : awss3.ServerSideEncryptionRule.t)
  : option v1beta1.ServerSideEncryptionRule.t :=
  local_rule <$> awss3.ServerSideEncryptionRule.ApplyServerSideEncryptionByDefault r.

(** A remote rule that the loop of [Observe] accepts for a desired one. *)
Definition agree (d : v1beta1.ServerSideEncryptionRule.t)
  (r : awss3.ServerSideEncryptionRule.t) : Prop :=
  exists a,
    awss3.ServerSideEncryptionRule.ApplyServerSideEncryptionByDefault r = Some a
    /\ awsclient.StringValue (awss3.ServerSideEncryptionByDefault.KMSMasterKeyID a)
       = awsclient.StringValue
           (v1beta1.ServerSideEncryptionByDefault.KMSMasterKeyID
              (v1beta1.ServerSideEncryptionRule.ApplyServerSideEncryptionByDefault d))
    /\ awss3.ServerSideEncryptionByDefault.SSEAlgorithm a
       = v1beta1.ServerSideEncryptionByDefault.SSEAlgorithm
           (v1beta1.ServerSideEncryptionRule.ApplyServerSideEncryptionByDefault d).

(** Every rule of a remote configuration has its default block. *)
Definition rules_set (remote : awss3.ServerSideEncryptionConfiguration.t) : Prop :=
  Forall (fun r =>
      awss3.ServerSideEncryptionRule.ApplyServerSideEncryptionByDefault r <> None)
    (elems (awss3.ServerSideEncryptionConfiguration.Rules remote)).

#[global] Instance rules_set_dec remote : Decision (rules_set remote).
Proof. unfold rules_set. apply _. Defined.

(** The read each facet sends for a bucket. *)
Definition logging_input (b : v1beta1.Bucket.t) : awss3.GetBucketLoggingInput.t :=
  awss3.GetBucketLoggingInput.mk (awsclient.String (meta.GetExternalName b)).

Definition encryption_input (b : v1beta1.Bucket.t) : awss3.GetBucketEncryptionInput.t :=
  awss3.GetBucketEncryptionInput.mk (awsclient.String (meta.GetExternalName b)).

(** What the client answers to that read, and the client it becomes. *)
Definition read_logging {C} `{!BucketClient C} (w : World C)
  : (error + awss3.GetBucketLoggingResponse.t) * C :=
  GetBucketLoggingRequest (logging_input (bucket w)) (client w).

Definition read_encryption {C} `{!BucketClient C} (w : World C)
  : (error + awss3.GetBucketEncryptionResponse.t) * C :=
  GetBucketEncryptionRequest (encryption_input (bucket w)) (client w).

(** The world once a request was sent and the client moved to [c]. *)
Definition sent {C} (w : World C) (req : Request) (c : C) : World C :=
  mkWorld (bucket w) c (requests w ++ [req]) (debug_log w).

(** The desired state of each facet. *)
Definition desired_logging {C} (w : World C) : option v1beta1.LoggingConfiguration.t :=
  v1beta1.Bucket.LoggingConfiguration (bucket w).

Definition desired_encryption {C} (w : World C)
  : option v1beta1.ServerSideEncryptionConfiguration.t :=
  v1beta1.Bucket.ServerSideEncryptionConfiguration (bucket w).

(** The number of entries a successful read reports; none when the facet is
    not configured remotely. *)
Definition remote_rule_count (output : awss3.GetBucketEncryptionOutput.t) : nat :=
  match awss3.GetBucketEncryptionOutput.ServerSideEncryptionConfiguration output with
  | Some remote => len (awss3.ServerSideEncryptionConfiguration.Rules remote)
  | None => 0
  end.

Definition remote_grant_count (output : awss3.GetBucketLoggingOutput.t) : nat :=
  match awss3.GetBucketLoggingOutput.LoggingEnabled output with
  | Some enabled => len (awss3.LoggingEnabled.TargetGrants enabled)
  | None => 0
  end.

(** The world with another desired logging configuration. *)
Definition with_logging {C} (w : World C)
  (config : option v1beta1.LoggingConfiguration.t) : World C :=
  mkWorld
    (v1beta1.Bucket.mk
       (v1beta1.Bucket.ExternalName (bucket w))
       config
       (v1beta1.Bucket.ServerSideEncryptionConfiguration (bucket w)))
    (client w) (requests w) (debug_log w).

#[global] Instance agree_dec d r : Decision (agree d r).
Proof.
  unfold agree.
  destruct (awss3.ServerSideEncryptionRule.ApplyServerSideEncryptionByDefault r)
    as [a|].
  - destruct (decide
      (awsclient.StringValue (awss3.ServerSideEncryptionByDefault.KMSMasterKeyID a)
       = awsclient.StringValue
           (v1beta1.ServerSideEncryptionByDefault.KMSMasterKeyID
              (v1beta1.ServerSideEncryptionRule.ApplyServerSideEncryptionByDefault d))
       /\ awss3.ServerSideEncryptionByDefault.SSEAlgorithm a
          = v1beta1.ServerSideEncryptionByDefault.SSEAlgorithm
              (v1beta1.ServerSideEncryptionRule.ApplyServerSideEncryptionByDefault d)))
      as [Hyes|Hno].
    + left. by exists a.
    + right. intros (a' & [= <-] & Hrest). by apply Hno.
  - right. by intros (a' & [=] & _).
Defined.

(** The desired grant read back from a remote grant, when the remote grant
    has its grantee. *)
Definition local_grant_of (v : awss3.TargetGrant.t) : option v1beta1.TargetGrant.t :=
  (fun grantee => local_grant grantee (awss3.TargetGrant.Permission v))
    <$> awss3.TargetGrant.Grantee v.

(** The remote shape [Observe] of the logging facet compares against. *)
Definition rendered_logging (local : option v1beta1.LoggingConfiguration.t)
  : option awss3.LoggingEnabled.t :=
  match local with
  | Some local =>
      Some (awss3.LoggingEnabled.mk
              (v1beta1.LoggingConfiguration.TargetBucket local)
              (slice_map remote_grant (v1beta1.LoggingConfiguration.TargetGrants local))
              (awsclient.String (v1beta1.LoggingConfiguration.TargetPrefix local)))
  | None => None
  end.

(** The world once a line was written to the logger. *)
Definition logged {C} (w : World C) (msg : string) : World C :=
  mkWorld (bucket w) (client w) (requests w) (debug_log w ++ [msg]).

(** Two worlds that differ at most in the desired logging configuration. *)
Definition same_but_logging {C} (w w' : World C) : Prop :=
  client w' = client w
  /\ requests w' = requests w
  /\ debug_log w' = debug_log w
  /\ v1beta1.Bucket.ExternalName (bucket w') = v1beta1.Bucket.ExternalName (bucket w)
  /\ v1beta1.Bucket.ServerSideEncryptionConfiguration (bucket w')
     = v1beta1.Bucket.ServerSideEncryptionConfiguration (bucket w).

(** Two worlds that differ at most in the desired encryption configuration. *)
Definition same_but_encryption {C} (w w' : World C) : Prop :=
  client w' = client w
  /\ requests w' = requests w
  /\ debug_log w' = debug_log w
  /\ v1beta1.Bucket.ExternalName (bucket w') = v1beta1.Bucket.ExternalName (bucket w)
  /\ v1beta1.Bucket.LoggingConfiguration (bucket w')
     = v1beta1.Bucket.LoggingConfiguration (bucket w).

(** The desired logging configuration after the two scalar fields were
    late initialised from the remote one. *)
Definition late_scalars (config : v1beta1.LoggingConfiguration.t)
  (enabled : awss3.LoggingEnabled.t) : v1beta1.LoggingConfiguration.t :=
  v1beta1.LoggingConfiguration.mk
    (awsclient.LateInitializeStringPtr
       (v1beta1.LoggingConfiguration.TargetBucket config)
       (awss3.LoggingEnabled.TargetBucket enabled))
    (v1beta1.LoggingConfiguration.TargetGrants config)
    (awsclient.LateInitializeString
       (v1beta1.LoggingConfiguration.TargetPrefix config)
       (awss3.LoggingEnabled.TargetPrefix enabled)).

Definition with_grants (config : v1beta1.LoggingConfiguration.t)
  (grants : slice v1beta1.TargetGrant.t) : v1beta1.LoggingConfiguration.t :=
  v1beta1.LoggingConfiguration.mk
    (v1beta1.LoggingConfiguration.TargetBucket config)
    grants
    (v1beta1.LoggingConfiguration.TargetPrefix config).

(** ** Sample values *)

Definition grant_alice : v1beta1.TargetGrant.t :=
  v1beta1.TargetGrant.mk
    (v1beta1.TargetGrantee.mk (Some "alice") None (Some "id-1") "CanonicalUser" None)
    "READ".

Definition logs_only : v1beta1.LoggingConfiguration.t :=
  v1beta1.LoggingConfiguration.mk (Some "logs") None EmptyString.

Definition logs_with_grant : v1beta1.LoggingConfiguration.t :=
  v1beta1.LoggingConfiguration.mk (Some "logs") (Some [grant_alice]) "audit/".

Definition rule_aes : v1beta1.ServerSideEncryptionRule.t :=
  v1beta1.ServerSideEncryptionRule.mk
    (v1beta1.ServerSideEncryptionByDefault.mk None "AES256").

Definition rule_kms : v1beta1.ServerSideEncryptionRule.t :=
  v1beta1.ServerSideEncryptionRule.mk
    (v1beta1.ServerSideEncryptionByDefault.mk (Some "key-1") "aws:kms").

Definition unset_rule : awss3.ServerSideEncryptionRule.t :=
  awss3.ServerSideEncryptionRule.mk None.

Definition sse_of (rules : list v1beta1.ServerSideEncryptionRule.t)
  : v1beta1.ServerSideEncryptionConfiguration.t :=
  v1beta1.ServerSideEncryptionConfiguration.mk (Some rules).

Definition remote_sse_of (rules : list awss3.ServerSideEncryptionRule.t)
  : awss3.ServerSideEncryptionConfiguration.t :=
  awss3.ServerSideEncryptionConfiguration.mk (Some rules).

Definition sse_response (config : option awss3.ServerSideEncryptionConfiguration.t)
  : error + awss3.GetBucketEncryptionResponse.t :=
  inr (awss3.GetBucketEncryptionResponse.mk
         (Some (awss3.GetBucketEncryptionOutput.mk config))).

Definition logging_response (enabled : option awss3.LoggingEnabled.t)
  : error + awss3.GetBucketLoggingResponse.t :=
  inr (awss3.GetBucketLoggingResponse.mk
         (Some (awss3.GetBucketLoggingOutput.mk enabled))).

Definition mock_logging (r : error + awss3.GetBucketLoggingResponse.t)
  : MockBucketClient :=
  mkMock r None (inl not_configured) None None.

Definition mock_encryption (r : error + awss3.GetBucketEncryptionResponse.t)
  : MockBucketClient :=
  mkMock (logging_response None) None r None None.

Definition bucket_of (l : option v1beta1.LoggingConfiguration.t)
  (e : option v1beta1.ServerSideEncryptionConfiguration.t) : v1beta1.Bucket.t :=
  v1beta1.Bucket.mk "my-bucket" l e.

(** Desired encryption present, remote not configured. *)
Definition world_desired_not_configured : World MockBucketClient :=
  world (bucket_of None (Some (sse_of [rule_aes])))
    (mock_encryption (inl not_configured)).

(** Nothing desired, remote not configured. *)
Definition world_absent : World MockBucketClient :=
  world (bucket_of None None) (mock_encryption (inl not_configured)).

(** One rule desired; the remote has it and one more. *)
Definition world_longer_remote_rules : World MockBucketClient :=
  world (bucket_of None (Some (sse_of [rule_aes])))
    (mock_encryption
       (sse_response (Some (remote_sse_of [remote_rule rule_aes; remote_rule rule_kms])))).

Definition enabled_two_grants : awss3.LoggingEnabled.t :=
  awss3.LoggingEnabled.mk (Some "logs")
    (Some [remote_grant grant_alice; remote_grant grant_alice]) (Some "audit/").

(** One grant desired; the remote has it twice. *)
Definition world_longer_remote_grants : World MockBucketClient :=
  world (bucket_of (Some logs_with_grant) None)
    (mock_logging (logging_response (Some enabled_two_grants))).

(** Nothing desired, the remote has an encryption rule. *)
Definition world_remote_rule_only : World MockBucketClient :=
  world (bucket_of None None)
    (mock_encryption (sse_response (Some (remote_sse_of [remote_rule rule_kms])))).

(** Nothing desired, the remote has logging enabled. *)
Definition world_remote_logging_only : World MockBucketClient :=
  world (bucket_of None None)
    (mock_logging (logging_response (Some enabled_two_grants))).

(** Two rules desired; the first remote rule differs from the first desired
    one and the second remote rule has no default block. *)
Definition world_unset_after_mismatch : World MockBucketClient :=
  world (bucket_of None (Some (sse_of [rule_aes; rule_kms])))
    (mock_encryption
       (sse_response (Some (remote_sse_of [remote_rule rule_kms; unset_rule])))).

(** Two rules desired; the remote agrees on the first and its second rule
    has no default block. *)
Definition world_unset_reached : World MockBucketClient :=
  world (bucket_of None (Some (sse_of [rule_aes; rule_kms])))
    (mock_encryption
       (sse_response (Some (remote_sse_of [remote_rule rule_aes; unset_rule])))).

(** The desired rule and the remote rule differ. *)
Definition world_rules_differ : World MockBucketClient :=
  world (bucket_of None (Some (sse_of [rule_aes])))
    (mock_encryption
       (sse_response (Some (remote_sse_of [remote_rule rule_kms])))).

(** Logging desired without grants, in front of a remote that has nothing. *)
Definition world_logs_only : World Remote :=
  world (bucket_of (Some logs_only) None) (mkRemote None None).

Definition enabled_without_grantee : awss3.LoggingEnabled.t :=
  awss3.LoggingEnabled.mk (Some "logs")
    (Some [remote_grant grant_alice; awss3.TargetGrant.mk None "WRITE"]) None.

(** Nothing desired; the second remote grant has no grantee. *)
Definition world_grant_without_grantee : World MockBucketClient :=
  world (bucket_of None None)
    (mock_logging (logging_response (Some enabled_without_grantee))).

(** Logging desired with a grant, the remote reports two. *)
Definition world_logging_set : World MockBucketClient :=
  world (bucket_of (Some logs_with_grant) None)
    (mock_logging
       (logging_response
          (Some (awss3.LoggingEnabled.mk (Some "other") (Some []) (Some "x/"))))).

(** The read of the encryption configuration fails for another reason. *)
Definition access_denied : error := AwsError "AccessDenied" "Access Denied".

Definition world_read_denied : World MockBucketClient :=
  world (bucket_of (Some logs_only) (Some (sse_of [rule_aes])))
    (mkMock (inl access_denied) None (inl access_denied) None None).

(** Both facets desired, in front of a remote that has nothing. *)
Definition world_both_desired : World Remote :=
  world (bucket_of (Some logs_with_grant) (Some (sse_of [rule_aes; rule_kms])))
    (mkRemote None None).

(** Nothing desired; the only remote rule has no default block. *)
Definition world_unset_not_desired : World MockBucketClient :=
  world (bucket_of None None)
    (mock_encryption (sse_response (Some (remote_sse_of [unset_rule])))).

(** One rule desired; the remote agrees on it and has one more rule, which
    has no default block. *)
Definition world_unset_extra_rule : World MockBucketClient :=
  world (bucket_of None (Some (sse_of [rule_aes])))
    (mock_encryption
       (sse_response (Some (remote_sse_of [remote_rule rule_aes; unset_rule])))).

(** ** Evaluation on samples *)

Example GenerateAWSLogging_sample :
  GenerateAWSLogging (Some logs_with_grant)
  = Return (Some (awss3.LoggingEnabled.mk (Some "logs")
                    (Some [remote_grant grant_alice]) (Some "audit/"))).
Proof. reflexivity. Qed.

Example Observe_sse_sample :
  SSEConfigurationClient.Observe
    (world (bucket_of None (Some (sse_of [rule_aes])))
       (mock_encryption (sse_response (Some (remote_sse_of [remote_rule rule_kms])))))
  = (Return (NeedsUpdate, None),
     mkWorld (bucket_of None (Some (sse_of [rule_aes])))
       (mock_encryption (sse_response (Some (remote_sse_of [remote_rule rule_kms]))))
       [GetBucketEncryption (awss3.GetBucketEncryptionInput.mk (Some "my-bucket"))] []).
Proof. reflexivity. Qed.

(** Desired state nil, the remote reports two grants: the desired state
    takes both, in order. *)
Example LateInitialize_two_grants :
  desired_logging
    (snd (LoggingConfigurationClient.LateInitialize world_remote_logging_only))
  = Some (v1beta1.LoggingConfiguration.mk (Some "logs")
            (Some [grant_alice; grant_alice]) "audit/").
Proof. reflexivity. Qed.

(** Desired state nil, the remote holds one rule: [NeedsDeletion], then
    [Delete] succeeds, then [Updated]. *)
Example encryption_deleted_then_Updated :
  let w0 := world (bucket_of None None)
              (mkRemote None (Some (remote_sse_of [remote_rule rule_kms]))) in
  fst (SSEConfigurationClient.Observe w0) = Return (NeedsDeletion, None)
  /\ fst (SSEConfigurationClient.Delete w0) = Return None
  /\ fst (SSEConfigurationClient.Observe (snd (SSEConfigurationClient.Delete w0)))
     = Return (Updated, None).
Proof. repeat split; reflexivity. Qed.

(** ** Loops that fill a slice *)

Lemma mapM_total {A B} (g : A -> B) (l : list A) :
  mapM (fun x => Some (g x)) l = Some (g <$> l).
Proof.
  apply mapM_Some. induction l as [|x l IH]; constructor; auto.
Qed.

Section Fill.
Context {St A B : Type}.
Variable getl : St -> slice B.
Variable setl : St -> slice B -> St.
Variable f : A -> option B.
Variable body : nat -> A -> ST St unit.
Variable P : nat -> A -> Prop.

Hypothesis get_set : forall s x, getl (setl s x) = x.
Hypothesis set_set : forall s x y, setl (setl s x) y = setl s y.
Hypothesis set_get : forall s, setl s (getl s) = s.

(** One turn stores the element's image at its index, or panics when the
    element has none. *)
Hypothesis body_spec : forall i v s l,
  P i v -> getl s = Some l -> i < length l ->
  body i v s =
    match f v with
    | Some b => (Return tt, setl s (Some (<[i:=b]> l)))
    | None => (Panic nil_dereference, s)
    end.

Lemma for_range_fill (src : list A) : forall i s l,
  getl s = Some l ->
  length l = i + length src ->
  (forall j v, src !! j = Some v -> P (i + j) v) ->
  match mapM f src with
  | Some bs => for_range body i src s = (Return tt, setl s (Some (take i l ++ bs)))
  | None => fst (for_range body i src s) = Panic nil_dereference
  end.
Proof.
  induction src as [|v src IH]; intros i s l Hget Hlen HP.
  - simpl in *. rewrite app_nil_r, take_ge by lia.
    by rewrite <- Hget, set_get.
  - simpl in Hlen.
    assert (Hturn : for_range body i (v :: src) s =
                    match f v with
                    | Some b => for_range body (S i) src (setl s (Some (<[i:=b]> l)))
                    | None => (Panic nil_dereference, s)
                    end).
    { cbn [for_range]. unfold mbind, ST_bind.
      rewrite (body_spec i v s l);
        [| replace i with (i + 0) by lia; by apply HP | done | lia].
      by destruct (f v). }
    rewrite Hturn. cbn [mapM]. destruct (f v) as [b|] eqn:Hf; cbn; [|done].
    specialize (IH (S i) (setl s (Some (<[i:=b]> l))) (<[i:=b]> l)).
    rewrite get_set, length_insert in IH.
    specialize (IH eq_refl ltac:(lia)).
    assert (Hstep : forall j w, src !! j = Some w -> P (S i + j) w).
    { intros j w Hj. replace (S i + j) with (i + S j) by lia. by apply HP. }
    specialize (IH Hstep).
    destruct (mapM f src) as [bs|]; cbn.
    + rewrite IH, set_set.
      rewrite (take_S_r _ _ b) by (apply list_lookup_insert_eq; lia).
      rewrite take_insert_ge by lia.
      by rewrite <- app_assoc.
    + done.
Qed.

End Fill.

(** ** The projectors in closed form *)

Ltac run :=
  unfold eval, mbind, mret, ST_bind, ST_ret, get, put, modify, raise, lift; cbn.

Lemma bind_run {St A B} (m : ST St A) (k : A -> ST St B) (s : St) :
  (m ≫= k) s =
  match m s with
  | (Return a, s') => k a s'
  | (Panic p, s') => (Panic p, s')
  end.
Proof. reflexivity. Qed.

Lemma GenerateAWSLogging_Some (local : v1beta1.LoggingConfiguration.t) :
  GenerateAWSLogging (Some local)
  = Return (Some (awss3.LoggingEnabled.mk
                    (v1beta1.LoggingConfiguration.TargetBucket local)
                    (slice_map remote_grant (v1beta1.LoggingConfiguration.TargetGrants local))
                    (awsclient.String (v1beta1.LoggingConfiguration.TargetPrefix local)))).
Proof.
  destruct local as [tb [grants|] tp]; [|reflexivity].
  unfold GenerateAWSLogging. cbn [v1beta1.LoggingConfiguration.TargetGrants
    v1beta1.LoggingConfiguration.TargetBucket v1beta1.LoggingConfiguration.TargetPrefix].
  rewrite decide_True by done.
  pose proof (for_range_fill awss3.LoggingEnabled.TargetGrants set_remote_grants
    (fun v => Some (remote_grant v))
    (fun i (_ : v1beta1.TargetGrant.t) =>
       g ← index (Some grants) i;
       let target := remote_grant g in
       output ← get;
       stored ← store (awss3.LoggingEnabled.TargetGrants output) i target;
       put (set_remote_grants output stored))
    (fun i v => grants !! i = Some v)) as Hfill.
  specialize (Hfill ltac:(by intros [] ?) ltac:(by intros [] ? ?) ltac:(by intros [])).
  assert (Hbody : forall i v (s : awss3.LoggingEnabled.t) l,
    grants !! i = Some v -> awss3.LoggingEnabled.TargetGrants s = Some l -> i < length l ->
    (g ← index (Some grants) i;
     let target := remote_grant g in
     output ← get;
     stored ← store (awss3.LoggingEnabled.TargetGrants output) i target;
     put (set_remote_grants output stored)) s
    = (Return tt, set_remote_grants s (Some (<[i:=remote_grant v]> l)))).
  { intros i v s l Hi Hs Hlt. unfold index, elems. simpl. rewrite Hi.
    run. rewrite Hs. unfold store. rewrite decide_True by done. by run. }
  specialize (Hfill Hbody grants 0
    (set_remote_grants
       (awss3.LoggingEnabled.mk tb None (awsclient.String tp))
       (make awss3.TargetGrant.zero (len (Some grants))))
    (replicate (length grants) awss3.TargetGrant.zero)
    eq_refl ltac:(by rewrite length_replicate) ltac:(done)).
  rewrite mapM_total in Hfill. cbv zeta in Hfill.
  unfold eval. rewrite bind_run. unfold modify at 1.
  rewrite bind_run. unfold elems at 1. simpl default.
  rewrite Hfill. by run.
Qed.

Lemma append_loop (src : list v1beta1.TargetGrant.t) :
  forall i (enabled : awss3.LoggingEnabled.t) l,
  awss3.LoggingEnabled.TargetGrants enabled = Some l ->
  for_range (fun _ grant =>
      modify (fun enabled =>
        set_remote_grants enabled
          (append (awss3.LoggingEnabled.TargetGrants enabled) (remote_grant grant))))
    i src enabled
  = (Return tt, set_remote_grants enabled (Some (l ++ (remote_grant <$> src)))).
Proof.
  induction src as [|g src IH]; intros i enabled l Hl.
  - cbn. rewrite app_nil_r, <- Hl. by destruct enabled.
  - cbn [for_range]. run.
    erewrite IH; [|reflexivity].
    rewrite Hl. cbn. by rewrite <- app_assoc.
Qed.

Lemma GeneratePutBucketLoggingInput_Some name (config : v1beta1.LoggingConfiguration.t) :
  GeneratePutBucketLoggingInput name (Some config)
  = Return (awss3.PutBucketLoggingInput.mk
              (awsclient.String name)
              (Some (awss3.BucketLoggingStatus.mk
                 (Some (awss3.LoggingEnabled.mk
                          (v1beta1.LoggingConfiguration.TargetBucket config)
                          (Some (remote_grant
                                   <$> elems (v1beta1.LoggingConfiguration.TargetGrants config)))
                          (awsclient.String
                             (v1beta1.LoggingConfiguration.TargetPrefix config))))))).
Proof.
  unfold GeneratePutBucketLoggingInput. run.
  by erewrite append_loop by reflexivity.
Qed.

Lemma GeneratePutBucketEncryptionInput_Some name
  (config : v1beta1.ServerSideEncryptionConfiguration.t) :
  GeneratePutBucketEncryptionInput name (Some config)
  = Return (awss3.PutBucketEncryptionInput.mk
              (awsclient.String name)
              (Some (awss3.ServerSideEncryptionConfiguration.mk
                 (Some (remote_rule
                          <$> elems (v1beta1.ServerSideEncryptionConfiguration.Rules config)))))).
Proof.
  destruct config as [rules]. unfold GeneratePutBucketEncryptionInput.
  cbn [v1beta1.ServerSideEncryptionConfiguration.Rules].
  pose proof (for_range_fill (fun s : slice awss3.ServerSideEncryptionRule.t => s)
    (fun _ s => s) (fun v => Some (remote_rule v))
    (fun i rule =>
       rules ← get;
       stored ← store rules i (remote_rule rule);
       put stored)
    (fun _ _ => True)) as Hfill.
  specialize (Hfill ltac:(done) ltac:(done) ltac:(done)).
  assert (Hbody : forall i v (s : slice awss3.ServerSideEncryptionRule.t) l,
    True -> s = Some l -> i < length l ->
    (rules ← get; stored ← store rules i (remote_rule v); put stored) s
    = (Return tt, Some (<[i:=remote_rule v]> l))).
  { intros i v s l _ -> Hlt. run. unfold store. rewrite decide_True by done. by run. }
  specialize (Hfill Hbody (elems rules) 0
    (make awss3.ServerSideEncryptionRule.zero (len rules))
    (replicate (len rules) awss3.ServerSideEncryptionRule.zero)
    eq_refl ltac:(by rewrite length_replicate) ltac:(done)).
  rewrite mapM_total in Hfill.
  unfold eval. rewrite bind_run, Hfill. by run.
Qed.

Lemma GenerateLocalBucketEncryption_Some
  (config : awss3.ServerSideEncryptionConfiguration.t) :
  GenerateLocalBucketEncryption (Some config)
  = match mapM local_rule_of (elems (awss3.ServerSideEncryptionConfiguration.Rules config)) with
    | Some rules => Return (Some rules)
    | None => Panic nil_dereference
    end.
Proof.
  destruct config as [remote]. unfold GenerateLocalBucketEncryption.
  cbn [awss3.ServerSideEncryptionConfiguration.Rules].
  pose proof (for_range_fill (fun s : slice v1beta1.ServerSideEncryptionRule.t => s)
    (fun _ s => s) local_rule_of
    (fun i rule =>
       by_default ←
         deref (awss3.ServerSideEncryptionRule.ApplyServerSideEncryptionByDefault rule);
       rules ← get;
       stored ← store rules i (local_rule by_default);
       put stored)
    (fun _ _ => True)) as Hfill.
  specialize (Hfill ltac:(done) ltac:(done) ltac:(done)).
  assert (Hbody : forall i v (s : slice v1beta1.ServerSideEncryptionRule.t) l,
    True -> s = Some l -> i < length l ->
    (by_default ←
       deref (awss3.ServerSideEncryptionRule.ApplyServerSideEncryptionByDefault v);
     rules ← get;
     stored ← store rules i (local_rule by_default);
     put stored) s
    = match local_rule_of v with
      | Some b => (Return tt, Some (<[i:=b]> l))
      | None => (Panic nil_dereference, s)
      end).
  { intros i [[a|]] s l _ -> Hlt; unfold local_rule_of; run; [|done].
    unfold store. rewrite decide_True by done. by run. }
  specialize (Hfill Hbody (elems remote) 0
    (make v1beta1.ServerSideEncryptionRule.zero (len remote))
    (replicate (len remote) v1beta1.ServerSideEncryptionRule.zero)
    eq_refl ltac:(by rewrite length_replicate) ltac:(done)).
  unfold eval. rewrite bind_run.
  destruct (mapM local_rule_of (elems remote)) as [rules|].
  - rewrite Hfill. by run.
  - destruct (for_range _ 0 (elems remote) _) as [[[]|p] s']; cbn in *; congruence.
Qed.

(** ** The loop of [Observe] *)

Lemma compare_rules_state {St} desired : forall i remote (s : St),
  snd (compare_rules i desired remote s) = s.
Proof.
  induction desired as [|d desired IH]; intros i remote s; [done|].
  cbn [compare_rules]. rewrite bind_run. unfold index.
  destruct (elems remote !! i) as [r|]; [|done]. cbn.
  rewrite bind_run.
  destruct (awss3.ServerSideEncryptionRule.ApplyServerSideEncryptionByDefault r); [|done].
  cbn. repeat case_decide; done.
Qed.

Lemma compare_rules_turn {St} d desired i remote (s : St) r :
  elems remote !! i = Some r ->
  compare_rules i (d :: desired) remote s =
  match awss3.ServerSideEncryptionRule.ApplyServerSideEncryptionByDefault r with
  | None => (Panic nil_dereference, s)
  | Some a =>
      if decide (awsclient.StringValue (awss3.ServerSideEncryptionByDefault.KMSMasterKeyID a)
                 = awsclient.StringValue
                     (v1beta1.ServerSideEncryptionByDefault.KMSMasterKeyID
                        (v1beta1.ServerSideEncryptionRule.ApplyServerSideEncryptionByDefault d))
                 /\ awss3.ServerSideEncryptionByDefault.SSEAlgorithm a
                    = v1beta1.ServerSideEncryptionByDefault.SSEAlgorithm
                        (v1beta1.ServerSideEncryptionRule.ApplyServerSideEncryptionByDefault d))
      then compare_rules (S i) desired remote s
      else (Return (Some NeedsUpdate), s)
  end.
Proof.
  intros Hr. cbn [compare_rules]. rewrite bind_run. unfold index. rewrite Hr. cbn.
  rewrite bind_run.
  destruct (awss3.ServerSideEncryptionRule.ApplyServerSideEncryptionByDefault r); [|done].
  cbn. destruct (decide (_ = _ /\ _ = _)) as [[-> ->]|Hne].
  - case_decide as H1; [by destruct H1|]. case_decide as H2; [by destruct H2|]. done.
  - case_decide as H1; [done|]. case_decide as H2; [done|].
    by destruct Hne.
Qed.

Lemma compare_rules_agree {St} desired : forall i remote (s : St),
  (forall j d, desired !! j = Some d ->
     exists r, elems remote !! (i + j) = Some r /\ agree d r) ->
  compare_rules i desired remote s = (Return None, s).
Proof.
  induction desired as [|d desired IH]; intros i remote s Hall; [done|].
  destruct (Hall 0 d eq_refl) as (r & Hr & a & Ha & Hk & Halg).
  rewrite Nat.add_0_r in Hr. rewrite (compare_rules_turn _ _ _ _ _ r Hr), Ha.
  rewrite decide_True by done. apply IH. intros j d' Hj.
  replace (S i + j) with (i + S j) by lia. by apply Hall.
Qed.

Lemma compare_rules_total {St} desired : forall i remote (s : St),
  Forall (fun r =>
      awss3.ServerSideEncryptionRule.ApplyServerSideEncryptionByDefault r <> None)
    (elems remote) ->
  i + length desired <= len remote ->
  exists early, compare_rules i desired remote s = (Return early, s).
Proof.
  induction desired as [|d desired IH]; intros i remote s Hset Hlen; [by eexists|].
  cbn [length] in Hlen. unfold len in Hlen.
  assert (Hi : i < length (elems remote)) by lia.
  destruct (lookup_lt_is_Some_2 _ _ Hi) as [r Hr].
  rewrite (compare_rules_turn _ _ _ _ _ r Hr).
  pose proof (proj1 (Forall_lookup _ _) Hset i r Hr) as Hsome. cbn beta in Hsome.
  destruct (awss3.ServerSideEncryptionRule.ApplyServerSideEncryptionByDefault r); [|done].
  case_decide; [|by eexists]. apply IH; [done|unfold len; lia].
Qed.

Lemma compare_rules_unset {St} desired : forall i remote (s : St) k r,
  elems remote !! (i + k) = Some r ->
  awss3.ServerSideEncryptionRule.ApplyServerSideEncryptionByDefault r = None ->
  k < length desired ->
  (forall j d, j < k -> desired !! j = Some d ->
     exists r', elems remote !! (i + j) = Some r' /\ agree d r') ->
  compare_rules i desired remote s = (Panic nil_dereference, s).
Proof.
  induction desired as [|d desired IH]; intros i remote s k r Hr Hnone Hk Hpre;
    [cbn in Hk; lia|].
  destruct k as [|k].
  - rewrite Nat.add_0_r in Hr. by rewrite (compare_rules_turn _ _ _ _ _ r Hr), Hnone.
  - destruct (Hpre 0 d ltac:(lia) eq_refl) as (r0 & Hr0 & a & Ha & Hkms & Halg).
    rewrite Nat.add_0_r in Hr0.
    rewrite (compare_rules_turn _ _ _ _ _ r0 Hr0), Ha, decide_True by done.
    apply (IH (S i) remote s k r).
    + by replace (S i + k) with (i + S k) by lia.
    + done.
    + cbn in Hk. lia.
    + intros j d' Hj Hd'. replace (S i + j) with (i + S j) by lia.
      apply Hpre; [lia|done].
Qed.

Lemma compare_rules_status {St} desired : forall i remote (s : St) status,
  fst (compare_rules i desired remote s) = Return (Some status) ->
  status = NeedsUpdate.
Proof.
  induction desired as [|d desired IH]; intros i remote s status; [done|].
  destruct (elems remote !! i) as [r|] eqn:Hr.
  - rewrite (compare_rules_turn _ _ _ _ _ r Hr).
    destruct (awss3.ServerSideEncryptionRule.ApplyServerSideEncryptionByDefault r);
      [|done].
    case_decide; [apply IH|]. cbn. congruence.
  - cbn [compare_rules]. rewrite bind_run. unfold index. by rewrite Hr.
Qed.

(** ** The operations, one remote answer at a time *)

(** From here on the projectors are used through their closed forms. *)
#[global] Arguments GenerateAWSLogging : simpl never.
#[global] Arguments GeneratePutBucketLoggingInput : simpl never.
#[global] Arguments GeneratePutBucketEncryptionInput : simpl never.
#[global] Arguments GenerateLocalBucketEncryption : simpl never.

Ltac observe_sse :=
  unfold SSEConfigurationClient.Observe, SSEConfigurationClient.get_encryption,
    SSEConfigurationClient.load_config, load_bucket, send,
    read_encryption, encryption_input, desired_encryption, sent in *;
  run.

Ltac observe_logging :=
  unfold LoggingConfigurationClient.Observe, LoggingConfigurationClient.get_logging,
    LoggingConfigurationClient.load_config, load_bucket, send,
    read_logging, logging_input, desired_logging, sent in *;
  run.

Section Operations.
Context {C : Type} `{!BucketClient C}.
Implicit Types w : World C.

Lemma SSE_Observe_failed w err c :
  read_encryption w = (inl err, c) ->
  SSEConfigurationClient.Observe w
  = (Return (if s3.SSEConfigurationNotFound err
                && bool_decide (desired_encryption w = None)
             then (Updated, None)
             else (NeedsUpdate,
                   awsclient.Wrap (resource.Ignore s3.SSEConfigurationNotFound err)
                     sseGetFailed)),
     sent w (GetBucketEncryption (encryption_input (bucket w))) c).
Proof.
  intros Hread. observe_sse. rewrite Hread. cbn. by destruct (_ && _).
Qed.

Lemma SSE_Observe_no_output w resp c :
  read_encryption w = (inr resp, c) ->
  awss3.GetBucketEncryptionResponse.GetBucketEncryptionOutput resp = None ->
  SSEConfigurationClient.Observe w
  = (Panic nil_dereference,
     sent w (GetBucketEncryption (encryption_input (bucket w))) c).
Proof.
  intros Hread Hout. observe_sse. rewrite Hread. cbn. by rewrite Hout.
Qed.

Lemma SSE_Observe_answered w resp output c :
  read_encryption w = (inr resp, c) ->
  awss3.GetBucketEncryptionResponse.GetBucketEncryptionOutput resp = Some output ->
  let w' := sent w (GetBucketEncryption (encryption_input (bucket w))) c in
  SSEConfigurationClient.Observe w
  = match awss3.GetBucketEncryptionOutput.ServerSideEncryptionConfiguration output,
          desired_encryption w with
    | Some _, None => (Return (NeedsDeletion, None), w')
    | None, None => (Return (Updated, None), w')
    | None, Some _ => (Return (NeedsUpdate, None), w')
    | Some remote, Some config =>
        let remote_rules := awss3.ServerSideEncryptionConfiguration.Rules remote in
        let rules := v1beta1.ServerSideEncryptionConfiguration.Rules config in
        if decide (len remote_rules = len rules)
        then match fst (compare_rules 0 (elems rules) remote_rules w') with
             | Return (Some status) => (Return (status, None), w')
             | Return None => (Return (Updated, None), w')
             | Panic p => (Panic p, w')
             end
        else (Return (NeedsUpdate, None), w')
    end.
Proof.
  intros Hread Hout. observe_sse. rewrite Hread. cbn. rewrite Hout. cbn.
  destruct (awss3.GetBucketEncryptionOutput.ServerSideEncryptionConfiguration output)
    as [remote|];
    destruct (v1beta1.Bucket.ServerSideEncryptionConfiguration (bucket w))
    as [config|]; try done.
  destruct (decide (len _ = len _)) as [Heq|Hne].
  - rewrite decide_False by (by intros ?).
    match goal with |- context [compare_rules ?i ?d ?r ?s] =>
      pose proof (compare_rules_state d i r s) as Hs;
      destruct (compare_rules i d r s) as [[[status|]|p] s'] end;
      cbn in *; by subst.
  - by rewrite decide_True.
Qed.

Lemma Logging_Observe_failed w err c :
  read_logging w = (inl err, c) ->
  LoggingConfigurationClient.Observe w
  = (Return (NeedsUpdate, awsclient.Wrap (Some err) loggingGetFailed),
     sent w (GetBucketLogging (logging_input (bucket w))) c).
Proof.
  intros Hread. observe_logging. by rewrite Hread.
Qed.

Lemma GenerateAWSLogging_total (local : option v1beta1.LoggingConfiguration.t) :
  exists rendered, GenerateAWSLogging local = Return rendered.
Proof.
  destruct local; [rewrite GenerateAWSLogging_Some|]; by eexists.
Qed.

Lemma Logging_Observe_no_output w resp c :
  read_logging w = (inr resp, c) ->
  awss3.GetBucketLoggingResponse.GetBucketLoggingOutput resp = None ->
  LoggingConfigurationClient.Observe w
  = (Panic nil_dereference,
     sent w (GetBucketLogging (logging_input (bucket w))) c).
Proof.
  intros Hread Hout. observe_logging. rewrite Hread. cbn.
  destruct (GenerateAWSLogging_total
              (v1beta1.Bucket.LoggingConfiguration (bucket w))) as [rendered ->].
  by rewrite Hout.
Qed.

Lemma Logging_Observe_answered w resp output c rendered :
  read_logging w = (inr resp, c) ->
  awss3.GetBucketLoggingResponse.GetBucketLoggingOutput resp = Some output ->
  GenerateAWSLogging (desired_logging w) = Return rendered ->
  LoggingConfigurationClient.Observe w
  = (Return (if decide (rendered = awss3.GetBucketLoggingOutput.LoggingEnabled output)
             then (Updated, None)
             else (NeedsUpdate, None)),
     sent w (GetBucketLogging (logging_input (bucket w))) c).
Proof.
  intros Hread Hout Hgen. observe_logging. rewrite Hread. cbn.
  rewrite Hgen, Hout. cbn. unfold cmp.Equal.
  by destruct (decide (rendered = _)) as [Heq|Hne];
    [rewrite bool_decide_eq_true_2|rewrite bool_decide_eq_false_2].
Qed.

Lemma Logging_CreateOrUpdate_absent w :
  desired_logging w = None ->
  LoggingConfigurationClient.CreateOrUpdate w = (Return None, w).
Proof.
  unfold desired_logging, LoggingConfigurationClient.CreateOrUpdate,
    LoggingConfigurationClient.load_config, load_bucket.
  intros Hnone. run. by rewrite Hnone.
Qed.

Lemma Logging_CreateOrUpdate_present w config :
  desired_logging w = Some config ->
  exists input,
    GeneratePutBucketLoggingInput (meta.GetExternalName (bucket w)) (Some config)
    = Return input
    /\ LoggingConfigurationClient.CreateOrUpdate w
       = (Return (awsclient.Wrap (fst (PutBucketLoggingRequest input (client w)))
                    loggingPutFailed),
          sent w (PutBucketLogging input)
            (snd (PutBucketLoggingRequest input (client w)))).
Proof.
  unfold desired_logging, LoggingConfigurationClient.CreateOrUpdate,
    LoggingConfigurationClient.load_config, load_bucket, send, sent.
  intros Hsome. eexists. split; [apply GeneratePutBucketLoggingInput_Some|].
  run. rewrite Hsome, decide_False by done. rewrite GeneratePutBucketLoggingInput_Some.
  by destruct (PutBucketLoggingRequest _ _).
Qed.

Lemma SSE_CreateOrUpdate_absent w :
  desired_encryption w = None ->
  SSEConfigurationClient.CreateOrUpdate w = (Return None, w).
Proof.
  unfold desired_encryption, SSEConfigurationClient.CreateOrUpdate,
    SSEConfigurationClient.load_config, load_bucket.
  intros Hnone. run. by rewrite Hnone.
Qed.

Lemma SSE_CreateOrUpdate_present w config :
  desired_encryption w = Some config ->
  exists input,
    GeneratePutBucketEncryptionInput (meta.GetExternalName (bucket w)) (Some config)
    = Return input
    /\ SSEConfigurationClient.CreateOrUpdate w
       = (Return (awsclient.Wrap (fst (PutBucketEncryptionRequest input (client w)))
                    ssePutFailed),
          sent w (PutBucketEncryption input)
            (snd (PutBucketEncryptionRequest input (client w)))).
Proof.
  unfold desired_encryption, SSEConfigurationClient.CreateOrUpdate,
    SSEConfigurationClient.load_config, load_bucket, send, sent.
  intros Hsome. eexists. split; [apply GeneratePutBucketEncryptionInput_Some|].
  run. rewrite Hsome, decide_False by done. rewrite GeneratePutBucketEncryptionInput_Some.
  by destruct (PutBucketEncryptionRequest _ _).
Qed.

End Operations.

(** ** Observation outcomes *)

Section Observation.
Context {C : Type} `{!BucketClient C}.
Implicit Types w : World C.

(** C2, as the code has it: when the desired encryption configuration is
    present and the read fails with the recognised "not configured" error,
    [Observe] answers [NeedsUpdate] with a nil error.  [resource.Ignore]
    drops the condition, so it reaches the caller as the outcome alone. *)
Theorem Observe_not_configured_is_NeedsUpdate w config err c :
  desired_encryption w = Some config ->
  read_encryption w = (inl err, c) ->
  s3.SSEConfigurationNotFound err = true ->
  SSEConfigurationClient.Observe w
  = (Return (NeedsUpdate, None),
     sent w (GetBucketEncryption (encryption_input (bucket w))) c).
Proof.
  intros Hdesired Hread Hnf.
  rewrite (SSE_Observe_failed w err c Hread), Hnf, Hdesired.
  rewrite bool_decide_eq_false_2 by done.
  unfold resource.Ignore. by rewrite Hnf.
Qed.

(** C3: with no desired encryption configuration, a read that fails with
    the "not configured" error is observed as [Updated] with a nil error;
    and with no desired state [CreateOrUpdate] of either facet returns nil
    and leaves the world as it was, so no request is sent. *)
Theorem absence_symmetry w :
  (forall err c,
     desired_encryption w = None ->
     read_encryption w = (inl err, c) ->
     s3.SSEConfigurationNotFound err = true ->
     fst (SSEConfigurationClient.Observe w) = Return (Updated, None))
  /\ (desired_encryption w = None ->
      SSEConfigurationClient.CreateOrUpdate w = (Return None, w))
  /\ (desired_logging w = None ->
      LoggingConfigurationClient.CreateOrUpdate w = (Return None, w)).
Proof.
  split; [|split].
  - intros err c Hdesired Hread Hnf.
    rewrite (SSE_Observe_failed w err c Hread), Hnf, Hdesired.
    by rewrite bool_decide_eq_true_2.
  - apply SSE_CreateOrUpdate_absent.
  - apply Logging_CreateOrUpdate_absent.
Qed.

(** C4: with a desired state and a successful read, a number of remote
    rules (grants) that differs from the number of desired rules (grants)
    makes [Observe] answer [NeedsUpdate], whatever the entries are. *)
Theorem count_mismatch_is_NeedsUpdate w :
  (forall config resp output c,
     desired_encryption w = Some config ->
     read_encryption w = (inr resp, c) ->
     awss3.GetBucketEncryptionResponse.GetBucketEncryptionOutput resp = Some output ->
     remote_rule_count output
       <> len (v1beta1.ServerSideEncryptionConfiguration.Rules config) ->
     fst (SSEConfigurationClient.Observe w) = Return (NeedsUpdate, None))
  /\ (forall config resp output c,
        desired_logging w = Some config ->
        read_logging w = (inr resp, c) ->
        awss3.GetBucketLoggingResponse.GetBucketLoggingOutput resp = Some output ->
        remote_grant_count output
          <> len (v1beta1.LoggingConfiguration.TargetGrants config) ->
        fst (LoggingConfigurationClient.Observe w) = Return (NeedsUpdate, None)).
Proof.
  split.
  - intros config resp output c Hdesired Hread Hout Hcount.
    rewrite (SSE_Observe_answered w resp output c Hread Hout), Hdesired.
    unfold remote_rule_count in Hcount.
    destruct (awss3.GetBucketEncryptionOutput.ServerSideEncryptionConfiguration output);
      [|done].
    by rewrite decide_False.
  - intros config resp output c Hdesired Hread Hout Hcount.
    erewrite (Logging_Observe_answered w resp output c _ Hread Hout);
      [|rewrite Hdesired; apply GenerateAWSLogging_Some].
    rewrite decide_False; [done|].
    intros Heq. apply Hcount. unfold remote_grant_count. rewrite <- Heq. cbn.
    destruct (v1beta1.LoggingConfiguration.TargetGrants config); [|done].
    unfold len. cbn. by rewrite length_fmap.
Qed.

(** C5: the encryption facet's [Observe] answers [NeedsDeletion] exactly
    when the read succeeds with an encryption configuration while none is
    desired; the logging facet's [Observe] never answers [NeedsDeletion],
    and answers [NeedsUpdate] when the remote reports logging while none is
    desired. *)
Theorem NeedsDeletion_only_for_encryption w :
  ((exists err, fst (SSEConfigurationClient.Observe w) = Return (NeedsDeletion, err))
   <-> (exists resp output remote c,
          read_encryption w = (inr resp, c)
          /\ awss3.GetBucketEncryptionResponse.GetBucketEncryptionOutput resp
             = Some output
          /\ awss3.GetBucketEncryptionOutput.ServerSideEncryptionConfiguration output
             = Some remote
          /\ desired_encryption w = None))
  /\ (forall err,
        fst (LoggingConfigurationClient.Observe w) <> Return (NeedsDeletion, err))
  /\ (forall resp output enabled c,
        read_logging w = (inr resp, c) ->
        awss3.GetBucketLoggingResponse.GetBucketLoggingOutput resp = Some output ->
        awss3.GetBucketLoggingOutput.LoggingEnabled output = Some enabled ->
        desired_logging w = None ->
        fst (LoggingConfigurationClient.Observe w) = Return (NeedsUpdate, None)).
Proof.
  split; [split|split].
  - intros [err Hobs].
    destruct (read_encryption w) as [[e|resp] c] eqn:Hread.
    { rewrite (SSE_Observe_failed w e c Hread) in Hobs. cbn in Hobs.
      by destruct (_ && _). }
    destruct (awss3.GetBucketEncryptionResponse.GetBucketEncryptionOutput resp)
      as [output|] eqn:Hout.
    2:{ by rewrite (SSE_Observe_no_output w resp c Hread Hout) in Hobs. }
    rewrite (SSE_Observe_answered w resp output c Hread Hout) in Hobs.
    destruct (awss3.GetBucketEncryptionOutput.ServerSideEncryptionConfiguration output)
      as [remote|] eqn:Hremote;
      destruct (desired_encryption w) as [config|] eqn:Hdesired; try done.
    + cbv zeta in Hobs. case_decide; [|done].
      match type of Hobs with context [compare_rules ?i ?d ?r ?s] =>
        pose proof (compare_rules_status d i r s) as Hst;
        destruct (fst (compare_rules i d r s)) as [[status|]|p] end; try done.
      specialize (Hst status eq_refl). cbn in Hobs. congruence.
    + by exists resp, output, remote, c.
  - intros (resp & output & remote & c & Hread & Hout & Hremote & Hdesired).
    exists None.
    by rewrite (SSE_Observe_answered w resp output c Hread Hout), Hremote, Hdesired.
  - intros err Hobs.
    destruct (read_logging w) as [[e|resp] c] eqn:Hread.
    { by rewrite (Logging_Observe_failed w e c Hread) in Hobs. }
    destruct (awss3.GetBucketLoggingResponse.GetBucketLoggingOutput resp)
      as [output|] eqn:Hout.
    2:{ by rewrite (Logging_Observe_no_output w resp c Hread Hout) in Hobs. }
    destruct (GenerateAWSLogging_total (desired_logging w)) as [rendered Hgen].
    rewrite (Logging_Observe_answered w resp output c rendered Hread Hout Hgen) in Hobs.
    cbn in Hobs. by case_decide.
  - intros resp output enabled c Hread Hout Henabled Hdesired.
    erewrite (Logging_Observe_answered w resp output c None Hread Hout);
      [|by rewrite Hdesired].
    by rewrite Henabled, decide_False.
Qed.

(** C8: [Observe] of either facet hands the bucket back as it received it,
    whatever the client answers, also when it panics. *)
Theorem Observe_keeps_bucket w :
  bucket (snd (LoggingConfigurationClient.Observe w)) = bucket w
  /\ bucket (snd (SSEConfigurationClient.Observe w)) = bucket w.
Proof.
  split.
  - destruct (read_logging w) as [[e|resp] c] eqn:Hread.
    { by rewrite (Logging_Observe_failed w e c Hread). }
    destruct (awss3.GetBucketLoggingResponse.GetBucketLoggingOutput resp)
      as [output|] eqn:Hout.
    2:{ by rewrite (Logging_Observe_no_output w resp c Hread Hout). }
    destruct (GenerateAWSLogging_total (desired_logging w)) as [rendered Hgen].
    by rewrite (Logging_Observe_answered w resp output c rendered Hread Hout Hgen).
  - destruct (read_encryption w) as [[e|resp] c] eqn:Hread.
    { by rewrite (SSE_Observe_failed w e c Hread). }
    destruct (awss3.GetBucketEncryptionResponse.GetBucketEncryptionOutput resp)
      as [output|] eqn:Hout.
    2:{ by rewrite (SSE_Observe_no_output w resp c Hread Hout). }
    rewrite (SSE_Observe_answered w resp output c Hread Hout).
    cbv zeta. repeat case_match; done.
Qed.

End Observation.

(** A sample of C2 as the code has it. *)
Lemma Observe_not_configured_is_NeedsUpdate_sample :
  desired_encryption world_desired_not_configured = Some (sse_of [rule_aes])
  /\ s3.SSEConfigurationNotFound not_configured = true
  /\ SSEConfigurationClient.Observe world_desired_not_configured
     = (Return (NeedsUpdate, None),
        sent world_desired_not_configured
          (GetBucketEncryption (encryption_input (bucket world_desired_not_configured)))
          (client world_desired_not_configured)).
Proof.
  split; [reflexivity|]. split; [reflexivity|].
  apply (Observe_not_configured_is_NeedsUpdate world_desired_not_configured
           (sse_of [rule_aes]) not_configured); reflexivity.
Defined.

(** C2 as the specification words it fails: the desired state is present,
    the read fails with the "not configured" error, and no error at all
    comes back from [Observe]. *)
Lemma Observe_not_configured_not_surfaced :
  desired_encryption world_desired_not_configured <> None
  /\ fst (read_encryption world_desired_not_configured) = inl not_configured
  /\ s3.SSEConfigurationNotFound not_configured = true
  /\ ~ (exists status err,
          fst (SSEConfigurationClient.Observe world_desired_not_configured)
          = Return (status, Some err)).
Proof.
  repeat split; try done.
  intros (status & err & Hobs). vm_compute in Hobs. congruence.
Qed.

(** A sample of C3. *)
Lemma absence_symmetry_sample :
  fst (SSEConfigurationClient.Observe world_absent) = Return (Updated, None)
  /\ SSEConfigurationClient.CreateOrUpdate world_absent = (Return None, world_absent)
  /\ LoggingConfigurationClient.CreateOrUpdate world_absent
     = (Return None, world_absent).
Proof.
  destruct (absence_symmetry world_absent) as (Hobserve & Hsse & Hlogging).
  split; [|split].
  - apply (Hobserve not_configured (client world_absent)); reflexivity.
  - apply Hsse; reflexivity.
  - apply Hlogging; reflexivity.
Defined.

(** A sample of C4: the shorter list is a prefix of the longer one. *)
Lemma count_mismatch_is_NeedsUpdate_sample :
  fst (SSEConfigurationClient.Observe world_longer_remote_rules)
  = Return (NeedsUpdate, None)
  /\ fst (LoggingConfigurationClient.Observe world_longer_remote_grants)
     = Return (NeedsUpdate, None).
Proof.
  split.
  - eapply (proj1 (count_mismatch_is_NeedsUpdate world_longer_remote_rules));
      [reflexivity|reflexivity|reflexivity|vm_compute; lia].
  - eapply (proj2 (count_mismatch_is_NeedsUpdate world_longer_remote_grants));
      [reflexivity|reflexivity|reflexivity|vm_compute; lia].
Defined.

(** A sample of C5. *)
Lemma NeedsDeletion_only_for_encryption_sample :
  (exists err,
     fst (SSEConfigurationClient.Observe world_remote_rule_only)
     = Return (NeedsDeletion, err))
  /\ fst (LoggingConfigurationClient.Observe world_remote_logging_only)
     = Return (NeedsUpdate, None).
Proof.
  destruct (NeedsDeletion_only_for_encryption world_remote_rule_only)
    as (Hdeletion & _ & _).
  destruct (NeedsDeletion_only_for_encryption world_remote_logging_only)
    as (_ & _ & Hlogging).
  split.
  - apply Hdeletion. by eexists _, _, _, _.
  - eapply Hlogging; reflexivity.
Defined.

(** ** The projectors against each other *)

Lemma local_rule_of_remote_rule (rule : v1beta1.ServerSideEncryptionRule.t) :
  local_rule_of (remote_rule rule) = Some rule.
Proof. by destruct rule as [[kms algorithm]]. Qed.

(** C7: reading back the configuration built for the put request gives the
    desired rules again, as many and in the same order, each with its key
    and its algorithm.  The slice read back is never nil: desired rules
    that are nil come back as the empty slice. *)
Theorem encryption_round_trip name (d : v1beta1.ServerSideEncryptionConfiguration.t) :
  exists input,
    GeneratePutBucketEncryptionInput name (Some d) = Return input
    /\ GenerateLocalBucketEncryption
         (awss3.PutBucketEncryptionInput.ServerSideEncryptionConfiguration input)
       = Return (Some (elems (v1beta1.ServerSideEncryptionConfiguration.Rules d))).
Proof.
  eexists. split; [apply GeneratePutBucketEncryptionInput_Some|].
  cbn [awss3.PutBucketEncryptionInput.ServerSideEncryptionConfiguration].
  rewrite GenerateLocalBucketEncryption_Some.
  cbn [awss3.ServerSideEncryptionConfiguration.Rules elems default].
  unfold elems at 1. cbn [default from_option id].
  by rewrite (mapM_fmap_Some _ _ _ local_rule_of_remote_rule).
Qed.

(** C10: the two renderings of a desired logging configuration are equal
    when its grants are not nil; when they are nil, [GenerateAWSLogging]
    keeps them nil, [GeneratePutBucketLoggingInput] renders the empty slice,
    and the renderings agree on the target bucket and the target prefix. *)
Theorem renderings_differ_on_nil_grants_only name
  (config : v1beta1.LoggingConfiguration.t) :
  exists put_enabled aws_enabled,
    GeneratePutBucketLoggingInput name (Some config)
    = Return (awss3.PutBucketLoggingInput.mk (awsclient.String name)
                (Some (awss3.BucketLoggingStatus.mk (Some put_enabled))))
    /\ GenerateAWSLogging (Some config) = Return (Some aws_enabled)
    /\ (v1beta1.LoggingConfiguration.TargetGrants config <> None ->
        put_enabled = aws_enabled)
    /\ (v1beta1.LoggingConfiguration.TargetGrants config = None ->
        awss3.LoggingEnabled.TargetGrants aws_enabled = None
        /\ awss3.LoggingEnabled.TargetGrants put_enabled = Some []
        /\ awss3.LoggingEnabled.TargetBucket put_enabled
           = awss3.LoggingEnabled.TargetBucket aws_enabled
        /\ awss3.LoggingEnabled.TargetPrefix put_enabled
           = awss3.LoggingEnabled.TargetPrefix aws_enabled).
Proof.
  eexists _, _.
  split; [apply GeneratePutBucketLoggingInput_Some|].
  split; [apply GenerateAWSLogging_Some|].
  destruct config as [bucket_name [grants|] prefix]; cbn; split; done.
Qed.

(** A sample of C10, with grants and without. *)
Lemma renderings_differ_on_nil_grants_only_sample :
  (exists enabled,
     GeneratePutBucketLoggingInput "my-bucket" (Some logs_with_grant)
     = Return (awss3.PutBucketLoggingInput.mk (Some "my-bucket")
                 (Some (awss3.BucketLoggingStatus.mk (Some enabled))))
     /\ GenerateAWSLogging (Some logs_with_grant) = Return (Some enabled))
  /\ (exists put_enabled aws_enabled,
        GeneratePutBucketLoggingInput "my-bucket" (Some logs_only)
        = Return (awss3.PutBucketLoggingInput.mk (Some "my-bucket")
                    (Some (awss3.BucketLoggingStatus.mk (Some put_enabled))))
        /\ GenerateAWSLogging (Some logs_only) = Return (Some aws_enabled)
        /\ awss3.LoggingEnabled.TargetGrants aws_enabled = None
        /\ awss3.LoggingEnabled.TargetGrants put_enabled = Some []).
Proof.
  split.
  - destruct (renderings_differ_on_nil_grants_only "my-bucket" logs_with_grant)
      as (put_enabled & aws_enabled & Hput & Haws & Hsame & _).
    exists put_enabled. split; [exact Hput|].
    rewrite Hsame; [exact Haws|discriminate].
  - destruct (renderings_differ_on_nil_grants_only "my-bucket" logs_only)
      as (put_enabled & aws_enabled & Hput & Haws & _ & Hnil).
    exists put_enabled, aws_enabled.
    destruct (Hnil eq_refl) as (Hnone & Hempty & _).
    repeat split; assumption.
Defined.

(** ** Remote rules without a default block *)

Lemma mapM_local_rule_of_set (remote : list awss3.ServerSideEncryptionRule.t) :
  is_Some (mapM local_rule_of remote)
  <-> Forall (fun r =>
        awss3.ServerSideEncryptionRule.ApplyServerSideEncryptionByDefault r <> None)
      remote.
Proof.
  rewrite mapM_is_Some. apply Forall_proper; [|done].
  intros [[a|]]; unfold local_rule_of; cbn; split; try done.
Qed.

Lemma compare_rules_mismatch {St} desired : forall i remote (s : St) k d r a,
  desired !! k = Some d ->
  elems remote !! (i + k) = Some r ->
  awss3.ServerSideEncryptionRule.ApplyServerSideEncryptionByDefault r = Some a ->
  ~ agree d r ->
  (forall j d', j < k -> desired !! j = Some d' ->
     exists r', elems remote !! (i + j) = Some r' /\ agree d' r') ->
  compare_rules i desired remote s = (Return (Some NeedsUpdate), s).
Proof.
  induction desired as [|d0 desired IH]; intros i remote s k d r a Hd Hr Ha Hno Hpre;
    [done|].
  destruct k as [|k].
  - injection Hd as ->. rewrite Nat.add_0_r in Hr.
    rewrite (compare_rules_turn _ _ _ _ _ r Hr), Ha.
    rewrite decide_False; [done|]. intros Hfields. apply Hno. by exists a.
  - destruct (Hpre 0 d0 ltac:(lia) eq_refl) as (r0 & Hr0 & a0 & Ha0 & Hkms & Halg).
    rewrite Nat.add_0_r in Hr0.
    rewrite (compare_rules_turn _ _ _ _ _ r0 Hr0), Ha0, decide_True by done.
    apply (IH (S i) remote s k d r a); try done.
    + by replace (S i + k) with (i + S k) by lia.
    + intros j d' Hj Hd'. replace (S i + j) with (i + S j) by lia.
      apply Hpre; [lia|done].
Qed.

Lemma compare_rules_panic_reached {St} desired : forall i remote (s : St) p,
  i + length desired <= len remote ->
  fst (compare_rules i desired remote s) = Panic p ->
  p = nil_dereference
  /\ exists k r,
       k < length desired
       /\ elems remote !! (i + k) = Some r
       /\ awss3.ServerSideEncryptionRule.ApplyServerSideEncryptionByDefault r = None
       /\ (forall j d, j < k -> desired !! j = Some d ->
             exists r', elems remote !! (i + j) = Some r' /\ agree d r').
Proof.
  induction desired as [|d0 desired IH]; intros i remote s p Hlen Hpanic; [done|].
  cbn [length] in Hlen. unfold len in Hlen.
  assert (Hi : i < length (elems remote)) by lia.
  destruct (lookup_lt_is_Some_2 _ _ Hi) as [r Hr].
  rewrite (compare_rules_turn _ _ _ _ _ r Hr) in Hpanic.
  destruct (awss3.ServerSideEncryptionRule.ApplyServerSideEncryptionByDefault r)
    as [a|] eqn:Ha.
  - case_decide as Hfields; [|done].
    destruct (IH (S i) remote s p) as (-> & k & r' & Hk & Hr' & Hnone & Hpre);
      [unfold len; lia|done|].
    split; [done|]. exists (S k), r'. split; [cbn; lia|].
    split; [by replace (i + S k) with (S i + k) by lia|]. split; [done|].
    intros [|j] d Hj Hd.
    + injection Hd as <-. exists r. rewrite Nat.add_0_r. split; [done|]. by exists a.
    + replace (i + S j) with (S i + j) by lia. apply Hpre; [lia|done].
  - injection Hpanic as <-. split; [done|]. exists 0, r. rewrite Nat.add_0_r.
    split; [cbn; lia|]. split; [done|]. split; [done|]. intros j d Hj. lia.
Qed.

Section Unset.
Context {C : Type} `{!BucketClient C}.
Implicit Types w : World C.

(** C9, as the code has it.  [GenerateLocalBucketEncryption] returns when
    every remote rule has its default block and panics on a nil dereference
    otherwise.  [Observe] returns on every successful read whose rules all
    have their default block; it panics on a rule without one when its loop
    reaches that rule: both configurations are present with as many rules,
    and every earlier remote rule agrees with the desired rule at its index.
    A response that holds such a rule is otherwise observed without a
    dereference: [NeedsDeletion] when nothing is desired, [NeedsUpdate] when
    the counts differ or when an earlier remote rule has its block and does
    not agree; and [Observe] panics on a successful read only on a rule that
    its loop reaches.  A desired rule holds its default block by value, so
    only the remote side can be nil. *)
Theorem unset_default_block_panics :
  (forall remote,
     (rules_set remote ->
      exists rules, GenerateLocalBucketEncryption (Some remote) = Return rules)
     /\ (~ rules_set remote ->
         GenerateLocalBucketEncryption (Some remote) = Panic nil_dereference))
  /\ (forall w resp output c,
        read_encryption w = (inr resp, c) ->
        awss3.GetBucketEncryptionResponse.GetBucketEncryptionOutput resp = Some output ->
        (forall remote,
           awss3.GetBucketEncryptionOutput.ServerSideEncryptionConfiguration output
           = Some remote ->
           rules_set remote) ->
        exists status, fst (SSEConfigurationClient.Observe w) = Return (status, None))
  /\ (forall w resp output c remote config k r,
        read_encryption w = (inr resp, c) ->
        awss3.GetBucketEncryptionResponse.GetBucketEncryptionOutput resp = Some output ->
        awss3.GetBucketEncryptionOutput.ServerSideEncryptionConfiguration output
        = Some remote ->
        desired_encryption w = Some config ->
        len (awss3.ServerSideEncryptionConfiguration.Rules remote)
        = len (v1beta1.ServerSideEncryptionConfiguration.Rules config) ->
        elems (awss3.ServerSideEncryptionConfiguration.Rules remote) !! k = Some r ->
        awss3.ServerSideEncryptionRule.ApplyServerSideEncryptionByDefault r = None ->
        (forall j d,
           j < k ->
           elems (v1beta1.ServerSideEncryptionConfiguration.Rules config) !! j = Some d ->
           exists r',
             elems (awss3.ServerSideEncryptionConfiguration.Rules remote) !! j = Some r'
             /\ agree d r') ->
        fst (SSEConfigurationClient.Observe w) = Panic nil_dereference)
  /\ (forall w resp output c remote,
        read_encryption w = (inr resp, c) ->
        awss3.GetBucketEncryptionResponse.GetBucketEncryptionOutput resp = Some output ->
        awss3.GetBucketEncryptionOutput.ServerSideEncryptionConfiguration output
        = Some remote ->
        desired_encryption w = None ->
        fst (SSEConfigurationClient.Observe w) = Return (NeedsDeletion, None))
  /\ (forall w resp output c remote config,
        read_encryption w = (inr resp, c) ->
        awss3.GetBucketEncryptionResponse.GetBucketEncryptionOutput resp = Some output ->
        awss3.GetBucketEncryptionOutput.ServerSideEncryptionConfiguration output
        = Some remote ->
        desired_encryption w = Some config ->
        len (awss3.ServerSideEncryptionConfiguration.Rules remote)
        <> len (v1beta1.ServerSideEncryptionConfiguration.Rules config) ->
        fst (SSEConfigurationClient.Observe w) = Return (NeedsUpdate, None))
  /\ (forall w resp output c remote config k d r a,
        read_encryption w = (inr resp, c) ->
        awss3.GetBucketEncryptionResponse.GetBucketEncryptionOutput resp = Some output ->
        awss3.GetBucketEncryptionOutput.ServerSideEncryptionConfiguration output
        = Some remote ->
        desired_encryption w = Some config ->
        len (awss3.ServerSideEncryptionConfiguration.Rules remote)
        = len (v1beta1.ServerSideEncryptionConfiguration.Rules config) ->
        elems (v1beta1.ServerSideEncryptionConfiguration.Rules config) !! k = Some d ->
        elems (awss3.ServerSideEncryptionConfiguration.Rules remote) !! k = Some r ->
        awss3.ServerSideEncryptionRule.ApplyServerSideEncryptionByDefault r = Some a ->
        ~ agree d r ->
        (forall j d',
           j < k ->
           elems (v1beta1.ServerSideEncryptionConfiguration.Rules config) !! j = Some d' ->
           exists r',
             elems (awss3.ServerSideEncryptionConfiguration.Rules remote) !! j = Some r'
             /\ agree d' r') ->
        fst (SSEConfigurationClient.Observe w) = Return (NeedsUpdate, None))
  /\ (forall w resp output c p,
        read_encryption w = (inr resp, c) ->
        awss3.GetBucketEncryptionResponse.GetBucketEncryptionOutput resp = Some output ->
        fst (SSEConfigurationClient.Observe w) = Panic p ->
        p = nil_dereference
        /\ exists remote config k r,
             awss3.GetBucketEncryptionOutput.ServerSideEncryptionConfiguration output
             = Some remote
             /\ desired_encryption w = Some config
             /\ len (awss3.ServerSideEncryptionConfiguration.Rules remote)
                = len (v1beta1.ServerSideEncryptionConfiguration.Rules config)
             /\ elems (awss3.ServerSideEncryptionConfiguration.Rules remote) !! k = Some r
             /\ awss3.ServerSideEncryptionRule.ApplyServerSideEncryptionByDefault r = None
             /\ (forall j d,
                   j < k ->
                   elems (v1beta1.ServerSideEncryptionConfiguration.Rules config) !! j
                   = Some d ->
                   exists r',
                     elems (awss3.ServerSideEncryptionConfiguration.Rules remote) !! j
                     = Some r'
                     /\ agree d r')).
Proof.
  split; [|split; [|split; [|split; [|split; [|split]]]]].
  - intros remote. rewrite GenerateLocalBucketEncryption_Some. split.
    + intros Hset. apply mapM_local_rule_of_set in Hset as [rules ->]. by eexists.
    + intros Hunset.
      destruct (mapM local_rule_of _) as [rules|] eqn:Hmap; [|done].
      destruct Hunset. apply mapM_local_rule_of_set. by rewrite Hmap.
  - intros w resp output c Hread Hout Hset.
    rewrite (SSE_Observe_answered w resp output c Hread Hout). cbv zeta.
    destruct (awss3.GetBucketEncryptionOutput.ServerSideEncryptionConfiguration output)
      as [remote|]; destruct (desired_encryption w) as [config|];
      try by eexists.
    case_decide as Hlen; [|by eexists].
    specialize (Hset remote eq_refl).
    match goal with |- context [compare_rules ?i ?d ?r ?s] =>
      destruct (compare_rules_total d i r s Hset) as [early ->] end.
    { unfold len in *. lia. }
    destruct early; by eexists.
  - intros w resp output c remote config k r
      Hread Hout Hremote Hdesired Hlen Hk Hnone Hagree.
    rewrite (SSE_Observe_answered w resp output c Hread Hout), Hremote, Hdesired.
    cbv zeta. rewrite decide_True by done.
    erewrite (compare_rules_unset _ 0 _ _ k r); [done|done|done| |done].
    apply lookup_lt_Some in Hk. unfold len in Hlen. lia.
- intros w resp output c remote Hread Hout Hremote Hdesired.
    by rewrite (SSE_Observe_answered w resp output c Hread Hout), Hremote, Hdesired.
  - intros w resp output c remote config Hread Hout Hremote Hdesired Hlen.
    rewrite (SSE_Observe_answered w resp output c Hread Hout), Hremote, Hdesired.
    cbv zeta. by rewrite decide_False.
  - intros w resp output c remote config k d r a
      Hread Hout Hremote Hdesired Hlen Hd Hr Ha Hno Hagree.
    rewrite (SSE_Observe_answered w resp output c Hread Hout), Hremote, Hdesired.
    cbv zeta. rewrite decide_True by done.
    by erewrite (compare_rules_mismatch _ 0 _ _ k d r a).
  - intros w resp output c p Hread Hout Hpanic.
    rewrite (SSE_Observe_answered w resp output c Hread Hout) in Hpanic.
    cbv zeta in Hpanic.
    destruct (awss3.GetBucketEncryptionOutput.ServerSideEncryptionConfiguration output)
      as [remote|]; destruct (desired_encryption w) as [config|]; try done.
    case_decide as Hlen; [|done].
    match type of Hpanic with context [compare_rules ?i ?d ?r ?s] =>
      pose proof (compare_rules_panic_reached d i r s) as Hreached;
      destruct (fst (compare_rules i d r s)) as [[status|]|p'] end; try done.
    cbn in Hpanic. injection Hpanic as ->.
    destruct (Hreached p) as (-> & k & r & Hk & Hr & Hnone & Hpre);
      [unfold len in *; lia|done|].
    split; [done|]. by exists remote, config, k, r.
Qed.

End Unset.

(** C9 as the specification words it fails: a remote response may hold a
    rule without its default block and [Observe] still returns, here on a
    mismatch found at an earlier index. *)
Lemma unset_default_block_not_reached :
  fst (read_encryption world_unset_after_mismatch)
  = sse_response (Some (remote_sse_of [remote_rule rule_kms; unset_rule]))
  /\ awss3.ServerSideEncryptionRule.ApplyServerSideEncryptionByDefault unset_rule = None
  /\ fst (SSEConfigurationClient.Observe world_unset_after_mismatch)
     = Return (NeedsUpdate, None)
  /\ fst (SSEConfigurationClient.Observe world_unset_after_mismatch)
     <> Panic nil_dereference.
Proof. repeat split; done. Qed.

(** Samples of C9: a panic in each function, a return of each, and the
    three ways a rule without its block is passed over. *)
Lemma unset_default_block_panics_sample :
  GenerateLocalBucketEncryption (Some (remote_sse_of [remote_rule rule_aes; unset_rule]))
  = Panic nil_dereference
  /\ (exists rules,
        GenerateLocalBucketEncryption (Some (remote_sse_of [remote_rule rule_aes]))
        = Return rules)
  /\ (exists status,
        fst (SSEConfigurationClient.Observe world_rules_differ) = Return (status, None))
  /\ fst (SSEConfigurationClient.Observe world_unset_reached) = Panic nil_dereference
  /\ fst (SSEConfigurationClient.Observe world_unset_not_desired)
     = Return (NeedsDeletion, None)
  /\ fst (SSEConfigurationClient.Observe world_unset_extra_rule)
     = Return (NeedsUpdate, None)
  /\ fst (SSEConfigurationClient.Observe world_unset_after_mismatch)
     = Return (NeedsUpdate, None)
  /\ (exists k r,
        elems (Some [remote_rule rule_aes; unset_rule]) !! k = Some r
        /\ awss3.ServerSideEncryptionRule.ApplyServerSideEncryptionByDefault r = None).
Proof.
  destruct (@unset_default_block_panics MockBucketClient _)
    as (Hlocal & Hreturns & Hpanics & Habsent & Hcount & Hearlier & Honly).
  split; [|split; [|split; [|split; [|split; [|split; [|split]]]]]].
  - apply Hlocal. intros Hset. by apply Forall_cons in Hset as [_ [Hunset _]%Forall_cons].
  - apply Hlocal. by repeat constructor.
  - eapply (Hreturns world_rules_differ); [reflexivity|reflexivity|].
    intros remote [= <-]. by repeat constructor.
  - eapply (Hpanics world_unset_reached _ _ _ _ _ 1 unset_rule);
      [reflexivity|reflexivity|reflexivity|reflexivity|reflexivity|reflexivity|
       reflexivity|].
    intros j d Hj Hd. assert (j = 0) as -> by lia.
    injection Hd as <-. exists (remote_rule rule_aes). split; [reflexivity|].
    by exists (awss3.ServerSideEncryptionByDefault.mk None "AES256").
  - eapply (Habsent world_unset_not_desired); reflexivity.
  - eapply (Hcount world_unset_extra_rule);
      [reflexivity|reflexivity|reflexivity|reflexivity|].
    vm_compute. lia.
  - eapply (Hearlier world_unset_after_mismatch _ _ _ _ _ 0 rule_aes
              (remote_rule rule_kms)
              (awss3.ServerSideEncryptionByDefault.mk (Some "key-1") "aws:kms"));
      [reflexivity|reflexivity|reflexivity|reflexivity|reflexivity|reflexivity|
       reflexivity|reflexivity| |].
    + intros (a & [= <-] & Hkms & _). discriminate Hkms.
    + intros j d Hj. lia.
  - edestruct (Honly world_unset_reached) as (_ & remote & config & k & r & Hremote
                                             & _ & _ & Hr & Hnone & _);
      [reflexivity|reflexivity|reflexivity|].
    injection Hremote as <-. by exists k, r.
Defined.

(** ** Apply, then observe, on the remote that stores what it is sent *)

Lemma agree_remote_rule (d : v1beta1.ServerSideEncryptionRule.t) :
  agree d (remote_rule d).
Proof. by eexists. Qed.

(** X13: The encryption facet converges: after [CreateOrUpdate] the bucket is
    the same and [Observe] answers [Updated].  The world reached satisfies
    the premise again, so this holds after every further call. *)
Lemma encryption_apply_then_observe (w : World Remote) config :
  desired_encryption w = Some config ->
  exists w1,
    SSEConfigurationClient.CreateOrUpdate w = (Return None, w1)
    /\ bucket w1 = bucket w
    /\ fst (SSEConfigurationClient.Observe w1) = Return (Updated, None).
Proof.
  intros Hdesired.
  destruct (SSE_CreateOrUpdate_present w config Hdesired) as (input & Hinput & ->).
  rewrite GeneratePutBucketEncryptionInput_Some in Hinput.
  injection Hinput as <-. eexists. split; [reflexivity|]. split; [reflexivity|].
  erewrite SSE_Observe_answered; [|reflexivity|reflexivity].
  cbn [awss3.GetBucketEncryptionOutput.ServerSideEncryptionConfiguration].
  change (desired_encryption (sent w _ _)) with (desired_encryption w).
  rewrite Hdesired. cbv zeta.
  cbn [awss3.ServerSideEncryptionConfiguration.Rules].
  rewrite decide_True by (unfold len; cbn; by rewrite length_fmap).
  rewrite compare_rules_agree; [done|].
  intros j d Hj. exists (remote_rule d). split; [|apply agree_remote_rule].
  cbn. by rewrite list_lookup_fmap, Hj.
Qed.

(** X14: The logging facet converges when the desired grants are not nil, and
    does not when they are: the put request holds an empty slice where
    [Observe] renders nil. *)
Lemma logging_apply_then_observe (w : World Remote) config :
  desired_logging w = Some config ->
  exists w1,
    LoggingConfigurationClient.CreateOrUpdate w = (Return None, w1)
    /\ bucket w1 = bucket w
    /\ fst (LoggingConfigurationClient.Observe w1)
       = Return (if decide (v1beta1.LoggingConfiguration.TargetGrants config = None)
                 then NeedsUpdate else Updated, None).
Proof.
  intros Hdesired.
  destruct (Logging_CreateOrUpdate_present w config Hdesired) as (input & Hinput & ->).
  rewrite GeneratePutBucketLoggingInput_Some in Hinput.
  injection Hinput as <-. eexists. split; [reflexivity|]. split; [reflexivity|].
  erewrite Logging_Observe_answered; [|reflexivity|reflexivity|].
  2:{ change (desired_logging (sent w _ _)) with (desired_logging w).
      rewrite Hdesired. apply GenerateAWSLogging_Some. }
  destruct config as [bucket_name [grants|] prefix]; cbn.
  - by rewrite decide_True, decide_False.
  - by rewrite decide_False, decide_True.
Qed.

(** C6, where the code parts from it: with logging desired and its grants
    nil, [CreateOrUpdate] succeeds, the remote stores the request as sent,
    the bucket is unchanged, and [Observe] answers [NeedsUpdate]; so it does
    after a second [CreateOrUpdate]. *)
Theorem logging_without_grants_never_Updated :
  v1beta1.LoggingConfiguration.TargetGrants logs_only = None
  /\ exists w1 w2,
       LoggingConfigurationClient.CreateOrUpdate world_logs_only = (Return None, w1)
       /\ bucket w1 = bucket world_logs_only
       /\ remote_logging (client w1)
          = Some (awss3.LoggingEnabled.mk (Some "logs") (Some []) None)
       /\ GenerateAWSLogging (desired_logging w1)
          = Return (Some (awss3.LoggingEnabled.mk (Some "logs") None None))
       /\ fst (LoggingConfigurationClient.Observe w1) = Return (NeedsUpdate, None)
       /\ LoggingConfigurationClient.CreateOrUpdate w1 = (Return None, w2)
       /\ fst (LoggingConfigurationClient.Observe w2) = Return (NeedsUpdate, None).
Proof.
  split; [reflexivity|]. eexists _, _. repeat split; reflexivity.
Qed.

(** ** Late initialisation *)

Section LateInitialisation.
Context {C : Type} `{!BucketClient C}.
Implicit Types w : World C.

Lemma update_config_run w config f :
  desired_logging w = Some config ->
  LoggingConfigurationClient.update_config f w
  = (Return tt, with_logging w (Some (f config))).
Proof.
  unfold desired_logging, LoggingConfigurationClient.update_config,
    LoggingConfigurationClient.load_config, LoggingConfigurationClient.store_config,
    load_bucket, store_bucket, with_logging.
  intros Hdesired. run. rewrite Hdesired. by run.
Qed.

(** One turn of the loop leaves the target bucket and the target prefix
    alone, also when it panics. *)
Lemma late_initialize_grant_frame i v w config :
  desired_logging w = Some config ->
  exists config',
    desired_logging (snd (LoggingConfigurationClient.late_initialize_grant i v w))
    = Some config'
    /\ v1beta1.LoggingConfiguration.TargetBucket config'
       = v1beta1.LoggingConfiguration.TargetBucket config
    /\ v1beta1.LoggingConfiguration.TargetPrefix config'
       = v1beta1.LoggingConfiguration.TargetPrefix config.
Proof.
  intros Hdesired. unfold LoggingConfigurationClient.late_initialize_grant.
  rewrite bind_run.
  destruct (awss3.TargetGrant.Grantee v) as [grantee|]; cbn; [|by exists config].
  rewrite bind_run.
  unfold LoggingConfigurationClient.load_config at 1, load_bucket. run.
  fold (desired_logging w). rewrite Hdesired. cbn.
  unfold store.
  destruct (v1beta1.LoggingConfiguration.TargetGrants config) as [grants|];
    cbn; [|by exists config].
  case_decide; cbn; [|by exists config].
  rewrite (update_config_run w config) by done. by eexists.
Qed.

Lemma late_initialize_grants_frame (remote : list awss3.TargetGrant.t) :
  forall i w config,
  desired_logging w = Some config ->
  exists config',
    desired_logging
      (snd (for_range LoggingConfigurationClient.late_initialize_grant i remote w))
    = Some config'
    /\ v1beta1.LoggingConfiguration.TargetBucket config'
       = v1beta1.LoggingConfiguration.TargetBucket config
    /\ v1beta1.LoggingConfiguration.TargetPrefix config'
       = v1beta1.LoggingConfiguration.TargetPrefix config.
Proof.
  induction remote as [|v remote IH]; intros i w config Hdesired; [by exists config|].
  cbn [for_range]. rewrite bind_run.
  destruct (late_initialize_grant_frame i v w config Hdesired)
    as (config1 & Hdesired1 & Hbucket1 & Hprefix1).
  destruct (LoggingConfigurationClient.late_initialize_grant i v w) as [[[]|p] w1];
    cbn in *.
  - destruct (IH (S i) w1 config1 Hdesired1) as (config2 & ? & ? & ?).
    exists config2. repeat split; congruence.
  - by exists config1.
Qed.

(** X1: The logging facet fills unset fields only: a target bucket that is
    not nil, a target prefix that is not empty and grants that are not empty
    are the same after [LateInitialize], whatever the remote reports and also
    when the call panics on a remote grant without grantee. *)
Lemma Logging_LateInitialize_keeps w config :
  desired_logging w = Some config ->
  exists config',
    desired_logging (snd (LoggingConfigurationClient.LateInitialize w)) = Some config'
    /\ (v1beta1.LoggingConfiguration.TargetBucket config <> None ->
        v1beta1.LoggingConfiguration.TargetBucket config'
        = v1beta1.LoggingConfiguration.TargetBucket config)
    /\ (v1beta1.LoggingConfiguration.TargetPrefix config <> EmptyString ->
        v1beta1.LoggingConfiguration.TargetPrefix config'
        = v1beta1.LoggingConfiguration.TargetPrefix config)
    /\ (len (v1beta1.LoggingConfiguration.TargetGrants config) <> 0 ->
        v1beta1.LoggingConfiguration.TargetGrants config'
        = v1beta1.LoggingConfiguration.TargetGrants config).
Proof.
  intros Hdesired. unfold LoggingConfigurationClient.LateInitialize.
  rewrite bind_run.
  unfold LoggingConfigurationClient.get_logging at 1. rewrite bind_run.
  unfold load_bucket at 1, send at 1.
  destruct (GetBucketLoggingRequest _ _) as [[err|external] c].
  { by exists config. }
  set (w1 := mkWorld _ _ _ _).
  assert (Hdesired1 : desired_logging w1 = Some config) by done.
  clearbody w1.
  rewrite bind_run. unfold LoggingConfigurationClient.load_config at 1, load_bucket at 1.
  rewrite bind_run. cbn [mret ST_ret]. fold (desired_logging w1). rewrite Hdesired1.
  rewrite bind_run.
  destruct (awss3.GetBucketLoggingResponse.GetBucketLoggingOutput external) as [output|];
    cbn [deref mret ST_ret raise]; [|by exists config].
  destruct (awss3.GetBucketLoggingOutput.LoggingEnabled output) as [enabled|];
    [|by exists config].
  rewrite bind_run. unfold Debug at 1, modify at 1.
  set (w2 := mkWorld _ _ _ _).
  assert (Hdesired2 : desired_logging w2 = Some config) by done.
  clearbody w2.
  rewrite decide_False by done. rewrite bind_run. cbn [mret ST_ret].
  rewrite bind_run, (update_config_run w2 config) by done.
  rewrite bind_run, (update_config_run _ _) by reflexivity.
  cbn [v1beta1.LoggingConfiguration.TargetBucket
       v1beta1.LoggingConfiguration.TargetGrants
       v1beta1.LoggingConfiguration.TargetPrefix].
  set (w3 := with_logging (with_logging w2 _) _).
  set (config3 := v1beta1.LoggingConfiguration.mk
    (awsclient.LateInitializeStringPtr
       (v1beta1.LoggingConfiguration.TargetBucket config)
       (awss3.LoggingEnabled.TargetBucket enabled))
    (v1beta1.LoggingConfiguration.TargetGrants config)
    (awsclient.LateInitializeString
       (v1beta1.LoggingConfiguration.TargetPrefix config)
       (awss3.LoggingEnabled.TargetPrefix enabled))).
  assert (Hdesired3 : desired_logging w3 = Some config3) by done.
  assert (Hkept : (v1beta1.LoggingConfiguration.TargetBucket config <> None ->
              v1beta1.LoggingConfiguration.TargetBucket config3
              = v1beta1.LoggingConfiguration.TargetBucket config)
           /\ (v1beta1.LoggingConfiguration.TargetPrefix config <> EmptyString ->
               v1beta1.LoggingConfiguration.TargetPrefix config3
               = v1beta1.LoggingConfiguration.TargetPrefix config)
           /\ v1beta1.LoggingConfiguration.TargetGrants config3
              = v1beta1.LoggingConfiguration.TargetGrants config).
  { subst config3. cbn. split; [|split; [|done]].
    - by destruct (v1beta1.LoggingConfiguration.TargetBucket config).
    - intros Hset. unfold awsclient.LateInitializeString.
      destruct (awss3.LoggingEnabled.TargetPrefix enabled); [|done].
      by rewrite decide_False. }
  destruct Hkept as (Hbucket & Hprefix & Hgrants).
  clearbody w3 config3.
  rewrite bind_run. unfold LoggingConfigurationClient.load_config at 1, load_bucket at 1.
  rewrite bind_run. cbn [mret ST_ret]. fold (desired_logging w3). rewrite Hdesired3.
  rewrite bind_run. cbn [deref mret ST_ret]. rewrite bind_run.
  case_decide as Hcond.
  - rewrite bind_run, (update_config_run w3 config3) by done.
    match goal with |- context [for_range _ 0 ?l ?w4] =>
      destruct (late_initialize_grants_frame l 0 w4 _ eq_refl)
        as (config5 & Hdesired5 & Hbucket5 & Hprefix5);
      destruct (for_range LoggingConfigurationClient.late_initialize_grant 0 l w4)
        as [[[]|p] w5] end;
      cbn in *; exists config5; (split; [done|]);
      rewrite Hbucket5, Hprefix5; (split; [done|]); (split; [done|]);
      intros Hlen; destruct Hcond as [_ Hzero]; rewrite Hgrants in Hzero; lia.
  - cbn. exists config3. rewrite Hgrants. by repeat split.
Qed.

(** The encryption facet has no such guard: when the read reports a
    configuration whose rules all have their default block, the desired
    rules become the remote ones, whatever they were. *)
Lemma SSE_LateInitialize_overwrites w resp output remote c rules :
  read_encryption w = (inr resp, c) ->
  awss3.GetBucketEncryptionResponse.GetBucketEncryptionOutput resp = Some output ->
  awss3.GetBucketEncryptionOutput.ServerSideEncryptionConfiguration output
  = Some remote ->
  mapM local_rule_of (elems (awss3.ServerSideEncryptionConfiguration.Rules remote))
  = Some rules ->
  exists w1,
    SSEConfigurationClient.LateInitialize w = (Return None, w1)
    /\ desired_encryption w1
       = Some (v1beta1.ServerSideEncryptionConfiguration.mk (Some rules)).
Proof.
  intros Hread Hout Hremote Hrules.
  unfold SSEConfigurationClient.LateInitialize, SSEConfigurationClient.get_encryption,
    SSEConfigurationClient.load_config, SSEConfigurationClient.store_config,
    load_bucket, store_bucket, send, Debug,
    read_encryption, encryption_input, desired_encryption in *.
  run. rewrite Hread. cbn. rewrite Hout, Hremote. cbn.
  rewrite GenerateLocalBucketEncryption_Some, Hrules.
  rewrite decide_False by done. cbn.
  destruct (v1beta1.Bucket.ServerSideEncryptionConfiguration (bucket w)) eqn:Hconfig;
    [rewrite decide_False by done|rewrite decide_True by done];
    cbn; try rewrite Hconfig; cbn; by eexists.
Qed.

End LateInitialisation.

(** C1, where the code parts from it: the desired encryption rules are set
    to one AES256 rule, the remote reports one KMS rule, and after
    [LateInitialize] the desired rules are the remote ones. *)
Theorem LateInitialize_overwrites_desired_rules :
  desired_encryption world_rules_differ = Some (sse_of [rule_aes])
  /\ fst (read_encryption world_rules_differ)
     = sse_response (Some (remote_sse_of [remote_rule rule_kms]))
  /\ exists w1,
       SSEConfigurationClient.LateInitialize world_rules_differ = (Return None, w1)
       /\ desired_encryption w1 = Some (sse_of [rule_kms])
       /\ desired_encryption w1 <> desired_encryption world_rules_differ.
Proof.
  split; [reflexivity|]. split; [reflexivity|].
  exists (snd (SSEConfigurationClient.LateInitialize world_rules_differ)).
  split; [by vm_compute|]. split; [by vm_compute|]. by vm_compute.
Qed.

(** ** Drift detection of the encryption facet, in full *)

Lemma compare_rules_decides {St} desired : forall i remote (s : St),
  Forall (fun r =>
      awss3.ServerSideEncryptionRule.ApplyServerSideEncryptionByDefault r <> None)
    (elems remote) ->
  i + length desired = len remote ->
  compare_rules i desired remote s
  = (Return (if decide (Forall2 agree desired (drop i (elems remote)))
             then None else Some NeedsUpdate), s).
Proof.
  induction desired as [|d desired IH]; intros i remote s Hset Hlen.
  - cbn in *. unfold len in Hlen. rewrite drop_ge by lia.
    by rewrite decide_True by constructor.
  - cbn [length] in Hlen. unfold len in Hlen.
    assert (Hi : i < length (elems remote)) by lia.
    destruct (lookup_lt_is_Some_2 _ _ Hi) as [r Hr].
    rewrite (compare_rules_turn _ _ _ _ _ r Hr).
    pose proof (proj1 (Forall_lookup _ _) Hset i r Hr) as Hsome. cbn beta in Hsome.
    rewrite (drop_S _ r i Hr).
    destruct (awss3.ServerSideEncryptionRule.ApplyServerSideEncryptionByDefault r)
      as [a|] eqn:Ha; [|done].
    case_decide as Hfields.
    + rewrite IH by (done || unfold len; lia).
      destruct (decide (Forall2 agree desired (drop (S i) (elems remote)))) as [Hrest|Hrest].
      * rewrite decide_True; [done|]. constructor; [by exists a|done].
      * rewrite decide_False; [done|]. by intros [_ ?]%Forall2_cons.
    + rewrite decide_False; [done|].
      intros [(a' & Ha' & Hk & Halg) _]%Forall2_cons.
      rewrite Ha in Ha'. injection Ha' as <-. by apply Hfields.
Qed.

Section Drift.
Context {C : Type} `{!BucketClient C}.
Implicit Types w : World C.

(** X10: With both configurations present and every remote rule holding its
    default block, [Observe] answers [Updated] exactly when the remote has
    as many rules as desired and each agrees with the desired rule at its
    index: same algorithm, and the same key once nil is read as the empty
    string.  Otherwise it answers [NeedsUpdate].  The error is nil. *)
Theorem Observe_encryption_decides w resp output remote config c :
  read_encryption w = (inr resp, c) ->
  awss3.GetBucketEncryptionResponse.GetBucketEncryptionOutput resp = Some output ->
  awss3.GetBucketEncryptionOutput.ServerSideEncryptionConfiguration output
  = Some remote ->
  desired_encryption w = Some config ->
  rules_set remote ->
  fst (SSEConfigurationClient.Observe w)
  = Return (if decide (Forall2 agree
                         (elems (v1beta1.ServerSideEncryptionConfiguration.Rules config))
                         (elems (awss3.ServerSideEncryptionConfiguration.Rules remote)))
            then Updated else NeedsUpdate, None).
Proof.
  intros Hread Hout Hremote Hdesired Hset.
  rewrite (SSE_Observe_answered w resp output c Hread Hout), Hremote, Hdesired.
  cbv zeta. case_decide as Hlen.
  - rewrite compare_rules_decides by (done || unfold len in *; lia).
    cbn. rewrite drop_0. by case_decide.
  - rewrite decide_False; [done|].
    intros Hall%Forall2_length. unfold len in Hlen. lia.
Qed.

End Drift.

(** ** What [Observe] reports *)

Lemma GenerateAWSLogging_rendered (local : option v1beta1.LoggingConfiguration.t) :
  GenerateAWSLogging local = Return (rendered_logging local).
Proof. destruct local; [apply GenerateAWSLogging_Some|done]. Qed.

Section Reports.
Context {C : Type} `{!BucketClient C}.
Implicit Types w : World C.

(** X9: On a successful read the logging facet's [Observe] answers [Updated]
    exactly when the remote [LoggingEnabled] equals the desired state
    rendered field by field: both nil, or the same target bucket, the prefix
    as [awsclient.String] renders it, and the grants in order, where nil
    grants and empty grants are different.  Otherwise it answers
    [NeedsUpdate]; the error is nil either way. *)
Theorem Observe_logging_decides w resp output c :
  read_logging w = (inr resp, c) ->
  awss3.GetBucketLoggingResponse.GetBucketLoggingOutput resp = Some output ->
  fst (LoggingConfigurationClient.Observe w)
  = Return (if decide (awss3.GetBucketLoggingOutput.LoggingEnabled output
                       = rendered_logging (desired_logging w))
            then Updated else NeedsUpdate, None).
Proof.
  intros Hread Hout.
  rewrite (Logging_Observe_answered w resp output c _ Hread Hout
             (GenerateAWSLogging_rendered _)).
  cbn. by repeat case_decide.
Qed.

(** X11: [Observe] hands an error to its caller exactly when the read failed
    with an error it keeps: any error for the logging facet, any error but
    the "not configured" one for the encryption facet.  The status is then
    [NeedsUpdate] and the error is the read error under the facet's tag. *)
Theorem Observe_error_is_read_error w status e :
  (fst (LoggingConfigurationClient.Observe w) = Return (status, Some e)
   <-> exists err,
         fst (read_logging w) = inl err
         /\ status = NeedsUpdate
         /\ e = Wrapped err loggingGetFailed)
  /\ (fst (SSEConfigurationClient.Observe w) = Return (status, Some e)
      <-> exists err,
            fst (read_encryption w) = inl err
            /\ s3.SSEConfigurationNotFound err = false
            /\ status = NeedsUpdate
            /\ e = Wrapped err sseGetFailed).
Proof.
  split.
  - destruct (read_logging w) as [[err|resp] c] eqn:Hread.
    + rewrite (Logging_Observe_failed w err c Hread). cbn. split.
      * intros [= <- <-]. by exists err.
      * by intros (err' & [= <-] & -> & ->).
    + split; [|by intros (? & [=] & _)].
      destruct (awss3.GetBucketLoggingResponse.GetBucketLoggingOutput resp)
        as [output|] eqn:Hout.
      * rewrite (Logging_Observe_answered w resp output c _ Hread Hout
                   (GenerateAWSLogging_rendered _)).
        cbn. by case_decide.
      * by rewrite (Logging_Observe_no_output w resp c Hread Hout).
  - destruct (read_encryption w) as [[err|resp] c] eqn:Hread.
    + rewrite (SSE_Observe_failed w err c Hread). cbn. unfold resource.Ignore.
      destruct (s3.SSEConfigurationNotFound err) eqn:Hnf; cbn.
      * split; [by case_bool_decide|]. intros (err' & [= <-] & Hkept & _). congruence.
      * split.
        -- intros [= <- <-]. by exists err.
        -- by intros (err' & [= <-] & _ & -> & ->).
    + split; [|by intros (? & [=] & _)].
      destruct (awss3.GetBucketEncryptionResponse.GetBucketEncryptionOutput resp)
        as [output|] eqn:Hout.
      * rewrite (SSE_Observe_answered w resp output c Hread Hout). cbv zeta.
        repeat case_match; try done; cbn; congruence.
      * by rewrite (SSE_Observe_no_output w resp c Hread Hout).
Qed.

End Reports.

(** ** The encryption projectors, from the remote side *)

Lemma agree_local_rule_of r d : local_rule_of r = Some d -> agree d r.
Proof.
  unfold local_rule_of.
  destruct (awss3.ServerSideEncryptionRule.ApplyServerSideEncryptionByDefault r)
    as [a|] eqn:Ha; [|done].
  intros [= <-]. by exists a.
Qed.

Lemma remote_rule_of_local r d : local_rule_of r = Some d -> remote_rule d = r.
Proof.
  unfold local_rule_of. destruct r as [[[kms algorithm]|]]; [|done].
  by intros [= <-].
Qed.

(** X16: Reading a remote configuration back and rendering the result again gives
    the remote rules again, in order, provided every remote rule holds its
    default block; remote rules that are nil are rendered as the empty
    slice. *)
Theorem encryption_round_trip_from_remote name
  (remote : awss3.ServerSideEncryptionConfiguration.t) :
  rules_set remote ->
  exists rules input,
    GenerateLocalBucketEncryption (Some remote) = Return rules
    /\ GeneratePutBucketEncryptionInput name
         (Some (v1beta1.ServerSideEncryptionConfiguration.mk rules))
       = Return input
    /\ awss3.PutBucketEncryptionInput.ServerSideEncryptionConfiguration input
       = Some (awss3.ServerSideEncryptionConfiguration.mk
                 (Some (elems (awss3.ServerSideEncryptionConfiguration.Rules remote)))).
Proof.
  intros Hset. apply mapM_local_rule_of_set in Hset as [rules Hrules].
  exists (Some rules). eexists. split; [|split].
  - by rewrite GenerateLocalBucketEncryption_Some, Hrules.
  - apply GeneratePutBucketEncryptionInput_Some.
  - cbn. do 3 f_equal.
    apply (mapM_fmap_Some_inv _ _ _ _ Hrules), remote_rule_of_local.
Qed.

Section EncryptionSequences.
Context {C : Type} `{!BucketClient C}.
Implicit Types w : World C.

(** X5: When the read reports a configuration whose rules all hold their default
    block, [LateInitialize] of the encryption facet returns nil and leaves
    the remote rules, read back in order, as the desired rules, whatever the
    desired rules were; an [Observe] that reads the same response next
    answers [Updated]. *)
Theorem LateInitialize_encryption_adopts_remote w resp output remote c :
  read_encryption w = (inr resp, c) ->
  awss3.GetBucketEncryptionResponse.GetBucketEncryptionOutput resp = Some output ->
  awss3.GetBucketEncryptionOutput.ServerSideEncryptionConfiguration output
  = Some remote ->
  rules_set remote ->
  exists rules w1,
    mapM local_rule_of (elems (awss3.ServerSideEncryptionConfiguration.Rules remote))
    = Some rules
    /\ SSEConfigurationClient.LateInitialize w = (Return None, w1)
    /\ desired_encryption w1
       = Some (v1beta1.ServerSideEncryptionConfiguration.mk (Some rules))
    /\ (forall c1,
          read_encryption w1 = (inr resp, c1) ->
          fst (SSEConfigurationClient.Observe w1) = Return (Updated, None)).
Proof.
  intros Hread Hout Hremote Hset.
  apply mapM_local_rule_of_set in Hset as [rules Hrules].
  destruct (SSE_LateInitialize_overwrites w resp output remote c rules
              Hread Hout Hremote Hrules) as (w1 & Hlate & Hdesired).
  exists rules, w1. repeat split; try done.
  intros c1 Hread1.
  rewrite (SSE_Observe_answered w1 resp output c1 Hread1 Hout), Hremote, Hdesired.
  cbv zeta. cbn [v1beta1.ServerSideEncryptionConfiguration.Rules].
  rewrite decide_True by (unfold len; cbn; by rewrite (length_mapM _ _ _ Hrules)).
  rewrite compare_rules_agree; [done|].
  intros j d Hj. cbn in Hj.
  apply mapM_Some_1 in Hrules.
  destruct (Forall2_lookup_r _ _ _ _ _ Hrules Hj) as (r & Hr & Hlocal).
  exists r. split; [done|]. by apply agree_local_rule_of.
Qed.

End EncryptionSequences.

(** X15: On the remote that stores what it is sent, [Delete] of the encryption
    facet returns nil, leaves the bucket alone and drops the remote
    configuration; the next [Observe] answers [Updated] when nothing is
    desired and [NeedsUpdate] with a nil error when something is. *)
Theorem Delete_then_Observe (w : World Remote) :
  exists w1,
    SSEConfigurationClient.Delete w = (Return None, w1)
    /\ bucket w1 = bucket w
    /\ remote_encryption (client w1) = None
    /\ fst (SSEConfigurationClient.Observe w1)
       = Return (if decide (desired_encryption w = None)
                 then Updated else NeedsUpdate, None).
Proof.
  exists (sent w
            (DeleteBucketEncryption
               (awss3.DeleteBucketEncryptionInput.mk
                  (awsclient.String (meta.GetExternalName (bucket w)))))
            (mkRemote (remote_logging (client w)) None)).
  split; [reflexivity|]. split; [reflexivity|]. split; [reflexivity|].
  erewrite SSE_Observe_failed; [|reflexivity].
  cbn. change (desired_encryption (sent w _ _)) with (desired_encryption w).
  by destruct (desired_encryption w).
Qed.

(** ** Late initialisation of the logging facet, in full *)

Section LoggingLateInitialisation.
Context {C : Type} `{!BucketClient C}.
Implicit Types w : World C.

Lemma same_but_logging_refl w : same_but_logging w w.
Proof. by repeat split. Qed.

Lemma same_but_logging_trans w1 w2 w3 :
  same_but_logging w1 w2 -> same_but_logging w2 w3 -> same_but_logging w1 w3.
Proof. unfold same_but_logging. intros (?&?&?&?&?) (?&?&?&?&?). repeat split; congruence. Qed.

Lemma late_initialize_grant_run i v w config l :
  desired_logging w = Some config ->
  v1beta1.LoggingConfiguration.TargetGrants config = Some l ->
  i < length l ->
  LoggingConfigurationClient.late_initialize_grant i v w
  = match local_grant_of v with
    | Some g => (Return tt, with_logging w (Some (with_grants config (Some (<[i:=g]> l)))))
    | None => (Panic nil_dereference, w)
    end.
Proof.
  intros Hdesired Hgrants Hlt.
  unfold LoggingConfigurationClient.late_initialize_grant, local_grant_of.
  rewrite bind_run.
  destruct (awss3.TargetGrant.Grantee v) as [grantee|]; cbn; [|done].
  rewrite bind_run.
  unfold LoggingConfigurationClient.load_config at 1, load_bucket. run.
  fold (desired_logging w). rewrite Hdesired. cbn.
  rewrite Hgrants. unfold store. rewrite decide_True by done. cbn.
  by rewrite (update_config_run w config).
Qed.

Lemma late_initialize_grants_run (remote : list awss3.TargetGrant.t) :
  forall i w config l,
  desired_logging w = Some config ->
  v1beta1.LoggingConfiguration.TargetGrants config = Some l ->
  length l = i + length remote ->
  same_but_logging w
    (snd (for_range LoggingConfigurationClient.late_initialize_grant i remote w))
  /\ match mapM local_grant_of remote with
     | Some gs =>
         fst (for_range LoggingConfigurationClient.late_initialize_grant i remote w)
         = Return tt
         /\ desired_logging
              (snd (for_range LoggingConfigurationClient.late_initialize_grant i remote w))
            = Some (with_grants config (Some (take i l ++ gs)))
     | None =>
         fst (for_range LoggingConfigurationClient.late_initialize_grant i remote w)
         = Panic nil_dereference
     end.
Proof.
  induction remote as [|v remote IH]; intros i w config l Hdesired Hgrants Hlen.
  - cbn in *. split; [apply same_but_logging_refl|]. split; [done|].
    rewrite app_nil_r, take_ge by lia. rewrite Hdesired, <- Hgrants.
    by destruct config.
  - cbn [for_range length] in *. rewrite bind_run.
    rewrite (late_initialize_grant_run i v w config l) by (done || lia).
    cbn [mapM]. destruct (local_grant_of v) as [g|]; cbn;
      [|split; [apply same_but_logging_refl|done]].
    set (w1 := with_logging w _).
    destruct (IH (S i) w1 (with_grants config (Some (<[i:=g]> l))) (<[i:=g]> l))
      as [Hsame Hrest]; [done|done|rewrite length_insert; lia|].
    split; [by eapply same_but_logging_trans; [|exact Hsame]|].
    destruct (mapM local_grant_of remote) as [gs|]; cbn; [|done].
    destruct Hrest as [-> ->]. split; [done|].
    rewrite (take_S_r _ _ g) by (apply list_lookup_insert_eq; lia).
    rewrite take_insert_ge by lia. by rewrite <- app_assoc.
Qed.

Lemma store_config_run w config :
  LoggingConfigurationClient.store_config config w = (Return tt, with_logging w config).
Proof. reflexivity. Qed.

Lemma load_config_run w :
  LoggingConfigurationClient.load_config w = (Return (desired_logging w), w).
Proof. reflexivity. Qed.

Lemma get_logging_run w r c :
  read_logging w = (r, c) ->
  LoggingConfigurationClient.get_logging w
  = (Return r, sent w (GetBucketLogging (logging_input (bucket w))) c).
Proof.
  unfold read_logging, logging_input, LoggingConfigurationClient.get_logging,
    load_bucket, send, sent.
  intros Hread. run. by rewrite Hread.
Qed.

Lemma Debug_run w msg : Debug msg w = (Return tt, logged w msg).
Proof. reflexivity. Qed.

Lemma Logging_LateInitialize_run w resp output enabled c :
  read_logging w = (inr resp, c) ->
  awss3.GetBucketLoggingResponse.GetBucketLoggingOutput resp = Some output ->
  awss3.GetBucketLoggingOutput.LoggingEnabled output = Some enabled ->
  let w2 := logged (sent w (GetBucketLogging (logging_input (bucket w))) c)
              "called LateInitialize for LoggingConfigurationClient" in
  let config :=
    late_scalars (default v1beta1.LoggingConfiguration.zero (desired_logging w)) enabled in
  same_but_logging w2 (snd (LoggingConfigurationClient.LateInitialize w))
  /\ if decide (awss3.LoggingEnabled.TargetGrants enabled <> None
                /\ len (v1beta1.LoggingConfiguration.TargetGrants config) = 0)
     then match mapM local_grant_of (elems (awss3.LoggingEnabled.TargetGrants enabled)) with
          | Some gs =>
              fst (LoggingConfigurationClient.LateInitialize w) = Return None
              /\ desired_logging (snd (LoggingConfigurationClient.LateInitialize w))
                 = Some (with_grants config (Some gs))
          | None =>
              fst (LoggingConfigurationClient.LateInitialize w) = Panic nil_dereference
          end
     else fst (LoggingConfigurationClient.LateInitialize w) = Return None
          /\ desired_logging (snd (LoggingConfigurationClient.LateInitialize w))
             = Some config.
Proof.
  intros Hread Hout Henabled w2 config.
  unfold LoggingConfigurationClient.LateInitialize.
  rewrite bind_run, (get_logging_run w _ c Hread).
  rewrite bind_run, load_config_run, bind_run, Hout. cbn [deref mret ST_ret].
  rewrite Henabled, bind_run, Debug_run. fold w2. rewrite bind_run.
  assert (Hinit : exists w2',
    (if decide (desired_logging (sent w (GetBucketLogging (logging_input (bucket w))) c)
                = None)
     then LoggingConfigurationClient.store_config (Some v1beta1.LoggingConfiguration.zero)
     else mret tt) w2 = (Return tt, w2')
    /\ same_but_logging w2 w2'
    /\ desired_logging w2'
       = Some (default v1beta1.LoggingConfiguration.zero (desired_logging w))).
  { change (desired_logging (sent w _ c)) with (desired_logging w).
    destruct (desired_logging w) as [config0|] eqn:Hdesired.
    - rewrite decide_False by done. exists w2. by repeat split.
    - rewrite decide_True by done. eexists. split; [apply store_config_run|].
      by repeat split. }
  destruct Hinit as (w2' & -> & Hsame2 & Hdesired2).
  rewrite bind_run, (update_config_run w2' _ _ Hdesired2).
  rewrite bind_run. erewrite update_config_run; [|reflexivity].
  set (w3 := with_logging (with_logging w2' _) _).
  assert (Hdesired3 : desired_logging w3 = Some config) by done.
  assert (Hsame3 : same_but_logging w2 w3).
  { eapply same_but_logging_trans; [exact Hsame2|]. by repeat split. }
  clearbody w3.
  rewrite bind_run, load_config_run, bind_run, Hdesired3. cbn [deref mret ST_ret].
  rewrite bind_run.
  case_decide as Hcopy.
  - rewrite bind_run, (update_config_run w3 config) by done.
    set (w4 := with_logging w3 _).
    destruct (late_initialize_grants_run
                (elems (awss3.LoggingEnabled.TargetGrants enabled)) 0 w4
                (with_grants config
                   (make v1beta1.TargetGrant.zero
                      (len (awss3.LoggingEnabled.TargetGrants enabled))))
                (replicate (len (awss3.LoggingEnabled.TargetGrants enabled))
                   v1beta1.TargetGrant.zero))
      as [Hsame5 Hloop]; [done|done|by rewrite length_replicate|].
    assert (Hsame4 : same_but_logging w2 w4).
    { eapply same_but_logging_trans; [exact Hsame3|]. by repeat split. }
    destruct (mapM local_grant_of _) as [gs|];
      destruct (for_range LoggingConfigurationClient.late_initialize_grant 0 _ w4)
        as [[[]|p] w5]; cbn in *.
    + split; [by eapply same_but_logging_trans|]. split; [done|].
      by destruct Hloop as [_ ->].
    + by destruct Hloop as [[=] _].
    + done.
    + split; [by eapply same_but_logging_trans|]. congruence.
  - cbn. split; [exact Hsame3|]. by split.
Qed.

Lemma Logging_LateInitialize_failed w err c :
  read_logging w = (inl err, c) ->
  LoggingConfigurationClient.LateInitialize w
  = (Return (Some (Wrapped err loggingGetFailed)),
     sent w (GetBucketLogging (logging_input (bucket w))) c).
Proof.
  intros Hread. unfold LoggingConfigurationClient.LateInitialize.
  by rewrite bind_run, (get_logging_run w _ c Hread).
Qed.

Lemma Logging_LateInitialize_no_output w resp c :
  read_logging w = (inr resp, c) ->
  awss3.GetBucketLoggingResponse.GetBucketLoggingOutput resp = None ->
  LoggingConfigurationClient.LateInitialize w
  = (Panic nil_dereference, sent w (GetBucketLogging (logging_input (bucket w))) c).
Proof.
  intros Hread Hout. unfold LoggingConfigurationClient.LateInitialize.
  rewrite bind_run, (get_logging_run w _ c Hread).
  by rewrite bind_run, load_config_run, bind_run, Hout.
Qed.

Lemma Logging_LateInitialize_nothing w resp output c :
  read_logging w = (inr resp, c) ->
  awss3.GetBucketLoggingResponse.GetBucketLoggingOutput resp = Some output ->
  awss3.GetBucketLoggingOutput.LoggingEnabled output = None ->
  LoggingConfigurationClient.LateInitialize w
  = (Return None, sent w (GetBucketLogging (logging_input (bucket w))) c).
Proof.
  intros Hread Hout Hnone. unfold LoggingConfigurationClient.LateInitialize.
  rewrite bind_run, (get_logging_run w _ c Hread).
  rewrite bind_run, load_config_run, bind_run, Hout. cbn [deref mret ST_ret].
  by rewrite Hnone.
Qed.

End LoggingLateInitialisation.

(** ** Late initialisation of the encryption facet, in full *)

Section EncryptionLateInitialisation.
Context {C : Type} `{!BucketClient C}.
Implicit Types w : World C.

Lemma get_encryption_run w r c :
  read_encryption w = (r, c) ->
  SSEConfigurationClient.get_encryption w
  = (Return r, sent w (GetBucketEncryption (encryption_input (bucket w))) c).
Proof.
  unfold read_encryption, encryption_input, SSEConfigurationClient.get_encryption,
    load_bucket, send, sent.
  intros Hread. run. by rewrite Hread.
Qed.

Lemma SSE_LateInitialize_failed w err c :
  read_encryption w = (inl err, c) ->
  SSEConfigurationClient.LateInitialize w
  = (Return (if s3.SSEConfigurationNotFound err then None
             else Some (Wrapped err sseGetFailed)),
     sent w (GetBucketEncryption (encryption_input (bucket w))) c).
Proof.
  intros Hread. unfold SSEConfigurationClient.LateInitialize.
  rewrite bind_run, (get_encryption_run w _ c Hread).
  by destruct (s3.SSEConfigurationNotFound err).
Qed.

Lemma SSE_LateInitialize_nothing w resp c :
  read_encryption w = (inr resp, c) ->
  (awss3.GetBucketEncryptionResponse.GetBucketEncryptionOutput resp
   ≫= awss3.GetBucketEncryptionOutput.ServerSideEncryptionConfiguration) = None ->
  SSEConfigurationClient.LateInitialize w
  = (Return None, sent w (GetBucketEncryption (encryption_input (bucket w))) c).
Proof.
  intros Hread Hnone. unfold SSEConfigurationClient.LateInitialize.
  rewrite bind_run, (get_encryption_run w _ c Hread).
  destruct (awss3.GetBucketEncryptionResponse.GetBucketEncryptionOutput resp)
    as [output|]; [|done].
  cbn in Hnone. cbv zeta. by rewrite Hnone, decide_True.
Qed.

Lemma SSE_LateInitialize_run w resp output remote c :
  read_encryption w = (inr resp, c) ->
  awss3.GetBucketEncryptionResponse.GetBucketEncryptionOutput resp = Some output ->
  awss3.GetBucketEncryptionOutput.ServerSideEncryptionConfiguration output
  = Some remote ->
  let w2 := logged (sent w (GetBucketEncryption (encryption_input (bucket w))) c)
              "called LateInitialize for SSEConfigurationClient" in
  same_but_encryption w2 (snd (SSEConfigurationClient.LateInitialize w))
  /\ match mapM local_rule_of
             (elems (awss3.ServerSideEncryptionConfiguration.Rules remote)) with
     | Some rules =>
         fst (SSEConfigurationClient.LateInitialize w) = Return None
         /\ desired_encryption (snd (SSEConfigurationClient.LateInitialize w))
            = Some (v1beta1.ServerSideEncryptionConfiguration.mk (Some rules))
     | None =>
         fst (SSEConfigurationClient.LateInitialize w) = Panic nil_dereference
         /\ desired_encryption (snd (SSEConfigurationClient.LateInitialize w))
            = Some (default v1beta1.ServerSideEncryptionConfiguration.zero
                      (desired_encryption w))
     end.
Proof.
  intros Hread Hout Hremote w2.
  unfold SSEConfigurationClient.LateInitialize.
  rewrite bind_run, (get_encryption_run w _ c Hread), Hout. cbv zeta.
  rewrite Hremote, decide_False by done.
  rewrite bind_run, Debug_run. fold w2.
  unfold SSEConfigurationClient.load_config, SSEConfigurationClient.store_config,
    load_bucket, store_bucket.
  rewrite GenerateLocalBucketEncryption_Some.
  run.
  change (v1beta1.Bucket.ServerSideEncryptionConfiguration (bucket w))
    with (desired_encryption w).
  destruct (desired_encryption w) as [config|] eqn:Hdesired;
    [rewrite decide_False by done|rewrite decide_True by done];
    destruct (mapM local_rule_of _) as [rules|]; cbn;
    try (change (v1beta1.Bucket.ServerSideEncryptionConfiguration (bucket w))
           with (desired_encryption w); rewrite Hdesired); cbn;
    by repeat split.
Qed.

End EncryptionLateInitialisation.

(** ** What late initialisation does to the bucket *)

Section LateInitialisationFacts.
Context {C : Type} `{!BucketClient C}.
Implicit Types w : World C.

Lemma Logging_LateInitialize_touches w :
  requests (snd (LoggingConfigurationClient.LateInitialize w))
  = requests w ++ [GetBucketLogging (logging_input (bucket w))]
  /\ v1beta1.Bucket.ExternalName (bucket (snd (LoggingConfigurationClient.LateInitialize w)))
     = v1beta1.Bucket.ExternalName (bucket w)
  /\ v1beta1.Bucket.ServerSideEncryptionConfiguration
       (bucket (snd (LoggingConfigurationClient.LateInitialize w)))
     = v1beta1.Bucket.ServerSideEncryptionConfiguration (bucket w).
Proof.
  destruct (read_logging w) as [[err|resp] c] eqn:Hread.
  { by rewrite (Logging_LateInitialize_failed w err c Hread). }
  destruct (awss3.GetBucketLoggingResponse.GetBucketLoggingOutput resp)
    as [output|] eqn:Hout.
  2:{ by rewrite (Logging_LateInitialize_no_output w resp c Hread Hout). }
  destruct (awss3.GetBucketLoggingOutput.LoggingEnabled output)
    as [enabled|] eqn:Henabled.
  2:{ by rewrite (Logging_LateInitialize_nothing w resp output c Hread Hout Henabled). }
  destruct (Logging_LateInitialize_run w resp output enabled c Hread Hout Henabled)
    as [(_ & Hrequests & _ & Hname & Hsse) _].
  by rewrite Hrequests, Hname, Hsse.
Qed.

Lemma SSE_LateInitialize_touches w :
  requests (snd (SSEConfigurationClient.LateInitialize w))
  = requests w ++ [GetBucketEncryption (encryption_input (bucket w))]
  /\ v1beta1.Bucket.ExternalName (bucket (snd (SSEConfigurationClient.LateInitialize w)))
     = v1beta1.Bucket.ExternalName (bucket w)
  /\ v1beta1.Bucket.LoggingConfiguration
       (bucket (snd (SSEConfigurationClient.LateInitialize w)))
     = v1beta1.Bucket.LoggingConfiguration (bucket w).
Proof.
  destruct (read_encryption w) as [[err|resp] c] eqn:Hread.
  { by rewrite (SSE_LateInitialize_failed w err c Hread). }
  destruct (awss3.GetBucketEncryptionResponse.GetBucketEncryptionOutput resp
            ≫= awss3.GetBucketEncryptionOutput.ServerSideEncryptionConfiguration)
    as [remote|] eqn:Hremote.
  2:{ by rewrite (SSE_LateInitialize_nothing w resp c Hread Hremote). }
  destruct (awss3.GetBucketEncryptionResponse.GetBucketEncryptionOutput resp)
    as [output|] eqn:Hout; [|done].
  destruct (SSE_LateInitialize_run w resp output remote c Hread Hout Hremote)
    as [(_ & Hrequests & _ & Hname & Hlogging) _].
  by rewrite Hrequests, Hname, Hlogging.
Qed.

(** X8: Reading never writes: [LateInitialize] and [Observe] of either facet
    send exactly one request, the read of their own facet keyed by the
    bucket's external name, on every path, panics included. *)
Theorem reads_send_one_read w :
  requests (snd (LoggingConfigurationClient.LateInitialize w))
  = requests w ++ [GetBucketLogging (logging_input (bucket w))]
  /\ requests (snd (LoggingConfigurationClient.Observe w))
     = requests w ++ [GetBucketLogging (logging_input (bucket w))]
  /\ requests (snd (SSEConfigurationClient.LateInitialize w))
     = requests w ++ [GetBucketEncryption (encryption_input (bucket w))]
  /\ requests (snd (SSEConfigurationClient.Observe w))
     = requests w ++ [GetBucketEncryption (encryption_input (bucket w))].
Proof.
  split; [apply Logging_LateInitialize_touches|].
  split; [|split; [apply SSE_LateInitialize_touches|]].
  - destruct (read_logging w) as [[e|resp] c] eqn:Hread.
    { by rewrite (Logging_Observe_failed w e c Hread). }
    destruct (awss3.GetBucketLoggingResponse.GetBucketLoggingOutput resp)
      as [output|] eqn:Hout.
    2:{ by rewrite (Logging_Observe_no_output w resp c Hread Hout). }
    by rewrite (Logging_Observe_answered w resp output c _ Hread Hout
                  (GenerateAWSLogging_rendered _)).
  - destruct (read_encryption w) as [[e|resp] c] eqn:Hread.
    { by rewrite (SSE_Observe_failed w e c Hread). }
    destruct (awss3.GetBucketEncryptionResponse.GetBucketEncryptionOutput resp)
      as [output|] eqn:Hout.
    2:{ by rewrite (SSE_Observe_no_output w resp c Hread Hout). }
    rewrite (SSE_Observe_answered w resp output c Hread Hout).
    cbv zeta. repeat case_match; done.
Qed.

(** X7: Each facet late initialises its own part of the bucket: the logging
    facet leaves the external name and the encryption configuration as they
    were, the encryption facet leaves the external name and the logging
    configuration, whatever the remote answers. *)
Theorem LateInitialize_keeps_the_other_facet w :
  (v1beta1.Bucket.ExternalName (bucket (snd (LoggingConfigurationClient.LateInitialize w)))
   = v1beta1.Bucket.ExternalName (bucket w)
   /\ desired_encryption (snd (LoggingConfigurationClient.LateInitialize w))
      = desired_encryption w)
  /\ (v1beta1.Bucket.ExternalName (bucket (snd (SSEConfigurationClient.LateInitialize w)))
      = v1beta1.Bucket.ExternalName (bucket w)
      /\ desired_logging (snd (SSEConfigurationClient.LateInitialize w))
         = desired_logging w).
Proof.
  split.
  - by destruct (Logging_LateInitialize_touches w) as (_ & ? & ?).
  - by destruct (SSE_LateInitialize_touches w) as (_ & ? & ?).
Qed.

End LateInitialisationFacts.

(** ** Late initialisation, outcome by outcome *)

Section LateInitialisationOutcomes.
Context {C : Type} `{!BucketClient C}.
Implicit Types w : World C.

(** X2: When the remote reports logging, [LateInitialize] of the logging facet
    returns nil and leaves a desired configuration, created empty if there
    was none, whose target bucket and prefix are late initialised from the
    remote ones.  Its grants are kept when they are not empty or the remote
    grants are nil; otherwise they become the remote grants read back field
    by field, as many and in the same order, provided every remote grant
    has its grantee. *)
Theorem LateInitialize_logging_fills w resp output enabled c :
  read_logging w = (inr resp, c) ->
  awss3.GetBucketLoggingResponse.GetBucketLoggingOutput resp = Some output ->
  awss3.GetBucketLoggingOutput.LoggingEnabled output = Some enabled ->
  let before := default v1beta1.LoggingConfiguration.zero (desired_logging w) in
  let remote := awss3.LoggingEnabled.TargetGrants enabled in
  (remote = None \/ len (v1beta1.LoggingConfiguration.TargetGrants before) <> 0 ->
   fst (LoggingConfigurationClient.LateInitialize w) = Return None
   /\ desired_logging (snd (LoggingConfigurationClient.LateInitialize w))
      = Some (late_scalars before enabled))
  /\ (forall grants,
        remote <> None ->
        len (v1beta1.LoggingConfiguration.TargetGrants before) = 0 ->
        mapM local_grant_of (elems remote) = Some grants ->
        fst (LoggingConfigurationClient.LateInitialize w) = Return None
        /\ desired_logging (snd (LoggingConfigurationClient.LateInitialize w))
           = Some (with_grants (late_scalars before enabled) (Some grants))).
Proof.
  intros Hread Hout Henabled before remote.
  destruct (Logging_LateInitialize_run w resp output enabled c Hread Hout Henabled)
    as [_ Hrun].
  cbn [late_scalars v1beta1.LoggingConfiguration.TargetGrants] in Hrun.
  fold before remote in Hrun. split.
  - intros Hkeep. rewrite decide_False in Hrun; [done|].
    intros [? ?]. by destruct Hkeep.
  - intros grants Hremote Hempty Hgrants.
    rewrite decide_True in Hrun by done. by rewrite Hgrants in Hrun.
Qed.

(** X3: When the remote reports logging and the desired grants are empty,
    a remote grant without grantee makes [LateInitialize] of the logging
    facet panic on a nil dereference: the loop that copies the grants reads
    the grantee's fields unguarded. *)
Theorem LateInitialize_logging_panics_without_grantee w resp output enabled c :
  read_logging w = (inr resp, c) ->
  awss3.GetBucketLoggingResponse.GetBucketLoggingOutput resp = Some output ->
  awss3.GetBucketLoggingOutput.LoggingEnabled output = Some enabled ->
  len (v1beta1.LoggingConfiguration.TargetGrants
         (default v1beta1.LoggingConfiguration.zero (desired_logging w))) = 0 ->
  Exists (fun v => awss3.TargetGrant.Grantee v = None)
    (elems (awss3.LoggingEnabled.TargetGrants enabled)) ->
  fst (LoggingConfigurationClient.LateInitialize w) = Panic nil_dereference.
Proof.
  intros Hread Hout Henabled Hempty Hunset.
  destruct (Logging_LateInitialize_run w resp output enabled c Hread Hout Henabled)
    as [_ Hrun].
  cbn [late_scalars v1beta1.LoggingConfiguration.TargetGrants] in Hrun.
  rewrite decide_True in Hrun.
  - rewrite (proj2 (mapM_None local_grant_of _)) in Hrun; [done|].
    eapply Exists_impl; [exact Hunset|]. intros v Hv. unfold local_grant_of.
    by rewrite Hv.
  - split; [|done]. intros Hnil. rewrite Hnil in Hunset. by apply Exists_nil in Hunset.
Qed.

(** X6: [LateInitialize] of the encryption facet treats the "not configured"
    error and a response without configuration alike: it returns nil, and
    the bucket is as it was.  Any other read error is returned under the
    facet's tag.  When a remote rule lacks its default block it panics, and
    by then a desired configuration that was nil has been replaced by an
    empty one. *)
Theorem LateInitialize_encryption_without_rules w :
  (forall err c,
     read_encryption w = (inl err, c) ->
     SSEConfigurationClient.LateInitialize w
     = (Return (if s3.SSEConfigurationNotFound err then None
                else Some (Wrapped err sseGetFailed)),
        sent w (GetBucketEncryption (encryption_input (bucket w))) c))
  /\ (forall resp c,
        read_encryption w = (inr resp, c) ->
        (awss3.GetBucketEncryptionResponse.GetBucketEncryptionOutput resp
         ≫= awss3.GetBucketEncryptionOutput.ServerSideEncryptionConfiguration) = None ->
        SSEConfigurationClient.LateInitialize w
        = (Return None, sent w (GetBucketEncryption (encryption_input (bucket w))) c))
  /\ (forall resp output remote c,
        read_encryption w = (inr resp, c) ->
        awss3.GetBucketEncryptionResponse.GetBucketEncryptionOutput resp = Some output ->
        awss3.GetBucketEncryptionOutput.ServerSideEncryptionConfiguration output
        = Some remote ->
        ~ rules_set remote ->
        fst (SSEConfigurationClient.LateInitialize w) = Panic nil_dereference
        /\ desired_encryption (snd (SSEConfigurationClient.LateInitialize w))
           = Some (default v1beta1.ServerSideEncryptionConfiguration.zero
                     (desired_encryption w))).
Proof.
  split; [apply SSE_LateInitialize_failed|].
  split; [apply SSE_LateInitialize_nothing|].
  intros resp output remote c Hread Hout Hremote Hunset.
  destruct (SSE_LateInitialize_run w resp output remote c Hread Hout Hremote)
    as [_ Hrun].
  destruct (mapM local_rule_of _) as [rules|] eqn:Hrules; [|done].
  destruct Hunset. apply mapM_local_rule_of_set. by rewrite Hrules.
Qed.

(** X12: With a desired state, [CreateOrUpdate] of either facet sends exactly one
    request, the put built from the whole desired state, leaves the bucket
    alone and returns nil exactly when the put succeeded. *)
Theorem CreateOrUpdate_sends_one_put w :
  (forall config,
     desired_logging w = Some config ->
     exists input,
       GeneratePutBucketLoggingInput (meta.GetExternalName (bucket w)) (Some config)
       = Return input
       /\ requests (snd (LoggingConfigurationClient.CreateOrUpdate w))
          = requests w ++ [PutBucketLogging input]
       /\ bucket (snd (LoggingConfigurationClient.CreateOrUpdate w)) = bucket w
       /\ (fst (LoggingConfigurationClient.CreateOrUpdate w) = Return None
           <-> fst (PutBucketLoggingRequest input (client w)) = None))
  /\ (forall config,
        desired_encryption w = Some config ->
        exists input,
          GeneratePutBucketEncryptionInput (meta.GetExternalName (bucket w)) (Some config)
          = Return input
          /\ requests (snd (SSEConfigurationClient.CreateOrUpdate w))
             = requests w ++ [PutBucketEncryption input]
          /\ bucket (snd (SSEConfigurationClient.CreateOrUpdate w)) = bucket w
          /\ (fst (SSEConfigurationClient.CreateOrUpdate w) = Return None
              <-> fst (PutBucketEncryptionRequest input (client w)) = None)).
Proof.
  split; intros config Hdesired.
  - destruct (Logging_CreateOrUpdate_present w config Hdesired)
      as (input & Hinput & ->).
    exists input. repeat split; try done; cbn.
    + intros [= Hwrap]. by destruct (fst (PutBucketLoggingRequest input (client w))).
    + by intros ->.
  - destruct (SSE_CreateOrUpdate_present w config Hdesired)
      as (input & Hinput & ->).
    exists input. repeat split; try done; cbn.
    + intros [= Hwrap]. by destruct (fst (PutBucketEncryptionRequest input (client w))).
    + by intros ->.
Qed.

(** X4: [LateInitialize] hands an error to its caller exactly when the read
    failed with an error it keeps: any error for the logging facet, any
    error but the "not configured" one for the encryption facet.  The error
    is the read error under the facet's tag, and after a failed read the
    bucket is as it was. *)
Theorem LateInitialize_error_is_read_error w e :
  (fst (LoggingConfigurationClient.LateInitialize w) = Return (Some e)
   <-> exists err,
         fst (read_logging w) = inl err /\ e = Wrapped err loggingGetFailed)
  /\ (fst (SSEConfigurationClient.LateInitialize w) = Return (Some e)
      <-> exists err,
            fst (read_encryption w) = inl err
            /\ s3.SSEConfigurationNotFound err = false
            /\ e = Wrapped err sseGetFailed)
  /\ (forall err,
        fst (read_logging w) = inl err ->
        bucket (snd (LoggingConfigurationClient.LateInitialize w)) = bucket w)
  /\ (forall err,
        fst (read_encryption w) = inl err ->
        bucket (snd (SSEConfigurationClient.LateInitialize w)) = bucket w).
Proof.
  split; [|split; [|split]].
  - destruct (read_logging w) as [[err|resp] c] eqn:Hread.
    + rewrite (Logging_LateInitialize_failed w err c Hread). cbn. split.
      * intros [= <-]. by exists err.
      * by intros (err' & [= <-] & ->).
    + split; [|by intros (? & [=] & _)].
      destruct (awss3.GetBucketLoggingResponse.GetBucketLoggingOutput resp)
        as [output|] eqn:Hout.
      2:{ by rewrite (Logging_LateInitialize_no_output w resp c Hread Hout). }
      destruct (awss3.GetBucketLoggingOutput.LoggingEnabled output)
        as [enabled|] eqn:Henabled.
      2:{ by rewrite (Logging_LateInitialize_nothing w resp output c Hread Hout Henabled). }
      destruct (Logging_LateInitialize_run w resp output enabled c Hread Hout Henabled)
        as [_ Hrun].
      case_decide; [destruct (mapM local_grant_of _)|];
        [destruct Hrun as [-> _]|rewrite Hrun|destruct Hrun as [-> _]]; done.
  - destruct (read_encryption w) as [[err|resp] c] eqn:Hread.
    + rewrite (SSE_LateInitialize_failed w err c Hread). cbn.
      destruct (s3.SSEConfigurationNotFound err) eqn:Hnf; split.
      * done.
      * intros (err' & [= <-] & Hkept & _). congruence.
      * intros [= <-]. by exists err.
      * by intros (err' & [= <-] & _ & ->).
    + split; [|by intros (? & [=] & _)].
      destruct (awss3.GetBucketEncryptionResponse.GetBucketEncryptionOutput resp
                ≫= awss3.GetBucketEncryptionOutput.ServerSideEncryptionConfiguration)
        as [remote|] eqn:Hremote.
      2:{ by rewrite (SSE_LateInitialize_nothing w resp c Hread Hremote). }
      destruct (awss3.GetBucketEncryptionResponse.GetBucketEncryptionOutput resp)
        as [output|] eqn:Hout; [|done].
      destruct (SSE_LateInitialize_run w resp output remote c Hread Hout Hremote)
        as [_ Hrun].
      destruct (mapM local_rule_of _); destruct Hrun as [-> _]; done.
  - intros err Hread. destruct (read_logging w) as [r c] eqn:Hpair.
    cbn in Hread. subst r. by rewrite (Logging_LateInitialize_failed w err c Hpair).
  - intros err Hread. destruct (read_encryption w) as [r c] eqn:Hpair.
    cbn in Hread. subst r. by rewrite (SSE_LateInitialize_failed w err c Hpair).
Qed.

End LateInitialisationOutcomes.

(** ** Samples of the properties above *)

Lemma Logging_LateInitialize_keeps_sample :
  exists config',
    desired_logging (snd (LoggingConfigurationClient.LateInitialize world_logging_set))
    = Some config'
    /\ v1beta1.LoggingConfiguration.TargetBucket config' = Some "logs"
    /\ v1beta1.LoggingConfiguration.TargetPrefix config' = "audit/"
    /\ v1beta1.LoggingConfiguration.TargetGrants config' = Some [grant_alice].
Proof.
  destruct (Logging_LateInitialize_keeps world_logging_set logs_with_grant eq_refl)
    as (config' & Hdesired & Hbucket & Hprefix & Hgrants).
  exists config'. split; [exact Hdesired|].
  split; [apply Hbucket; discriminate|].
  split; [apply Hprefix; discriminate|].
  apply Hgrants. discriminate.
Defined.

Lemma encryption_apply_then_observe_sample :
  exists w1,
    SSEConfigurationClient.CreateOrUpdate world_both_desired = (Return None, w1)
    /\ bucket w1 = bucket world_both_desired
    /\ fst (SSEConfigurationClient.Observe w1) = Return (Updated, None).
Proof.
  exact (encryption_apply_then_observe world_both_desired
           (sse_of [rule_aes; rule_kms]) eq_refl).
Defined.

Lemma logging_apply_then_observe_sample :
  exists w1,
    LoggingConfigurationClient.CreateOrUpdate world_both_desired = (Return None, w1)
    /\ bucket w1 = bucket world_both_desired
    /\ fst (LoggingConfigurationClient.Observe w1) = Return (Updated, None).
Proof.
  exact (logging_apply_then_observe world_both_desired logs_with_grant eq_refl).
Defined.

Lemma Observe_encryption_decides_sample :
  fst (SSEConfigurationClient.Observe world_rules_differ) = Return (NeedsUpdate, None).
Proof.
  etransitivity.
  - eapply (Observe_encryption_decides world_rules_differ);
      [reflexivity|reflexivity|reflexivity|reflexivity|].
    by repeat constructor.
  - reflexivity.
Defined.

Lemma Observe_logging_decides_sample :
  fst (LoggingConfigurationClient.Observe world_remote_logging_only)
  = Return (NeedsUpdate, None).
Proof.
  etransitivity.
  - eapply (Observe_logging_decides world_remote_logging_only); reflexivity.
  - reflexivity.
Defined.

Lemma encryption_round_trip_from_remote_sample :
  exists rules input,
    GenerateLocalBucketEncryption (Some (remote_sse_of [remote_rule rule_kms]))
    = Return rules
    /\ GeneratePutBucketEncryptionInput "my-bucket"
         (Some (v1beta1.ServerSideEncryptionConfiguration.mk rules))
       = Return input
    /\ awss3.PutBucketEncryptionInput.ServerSideEncryptionConfiguration input
       = Some (remote_sse_of [remote_rule rule_kms]).
Proof.
  apply (encryption_round_trip_from_remote "my-bucket"
           (remote_sse_of [remote_rule rule_kms])).
  by repeat constructor.
Defined.

Lemma LateInitialize_encryption_adopts_remote_sample :
  exists w1,
    SSEConfigurationClient.LateInitialize world_rules_differ = (Return None, w1)
    /\ desired_encryption w1 = Some (sse_of [rule_kms])
    /\ fst (SSEConfigurationClient.Observe w1) = Return (Updated, None).
Proof.
  edestruct (LateInitialize_encryption_adopts_remote world_rules_differ)
    as (rules & w1 & Hrules & Hlate & Hdesired & Hobserve);
    [reflexivity|reflexivity|reflexivity|by repeat constructor|].
  exists w1. split; [exact Hlate|].
  injection Hrules as <-. split; [exact Hdesired|].
  apply (Hobserve (client w1)).
  injection Hlate as <-. reflexivity.
Defined.

Lemma LateInitialize_logging_fills_sample :
  fst (LoggingConfigurationClient.LateInitialize world_remote_logging_only) = Return None
  /\ desired_logging
       (snd (LoggingConfigurationClient.LateInitialize world_remote_logging_only))
     = Some (v1beta1.LoggingConfiguration.mk (Some "logs")
               (Some [grant_alice; grant_alice]) "audit/").
Proof.
  edestruct (LateInitialize_logging_fills world_remote_logging_only) as [_ Hcopy];
    [reflexivity|reflexivity|reflexivity|].
  apply (Hcopy [grant_alice; grant_alice]); [discriminate|reflexivity|reflexivity].
Defined.

Lemma LateInitialize_logging_panics_without_grantee_sample :
  fst (LoggingConfigurationClient.LateInitialize world_grant_without_grantee)
  = Panic nil_dereference.
Proof.
  eapply (LateInitialize_logging_panics_without_grantee world_grant_without_grantee);
    [reflexivity|reflexivity|reflexivity|reflexivity|].
  apply Exists_cons_tl, Exists_cons_hd. reflexivity.
Defined.

Lemma LateInitialize_encryption_without_rules_sample :
  fst (SSEConfigurationClient.LateInitialize world_read_denied)
  = Return (Some (Wrapped access_denied sseGetFailed))
  /\ fst (SSEConfigurationClient.LateInitialize world_absent) = Return None
  /\ bucket (snd (SSEConfigurationClient.LateInitialize world_absent))
     = bucket world_absent
  /\ fst (SSEConfigurationClient.LateInitialize world_unset_reached)
     = Panic nil_dereference.
Proof.
  destruct (LateInitialize_encryption_without_rules world_read_denied)
    as (Hfailed & _ & _).
  destruct (LateInitialize_encryption_without_rules world_absent)
    as (Habsorbed & _ & _).
  destruct (LateInitialize_encryption_without_rules world_unset_reached)
    as (_ & _ & Hpanics).
  rewrite (Hfailed access_denied (client world_read_denied) eq_refl).
  rewrite (Habsorbed not_configured (client world_absent) eq_refl).
  split; [reflexivity|]. split; [reflexivity|]. split; [reflexivity|].
  eapply Hpanics; [reflexivity|reflexivity|reflexivity|].
  intros Hset. by apply Forall_cons in Hset as [_ [Hunset _]%Forall_cons].
Defined.

Lemma CreateOrUpdate_sends_one_put_sample :
  (exists input,
     requests (snd (LoggingConfigurationClient.CreateOrUpdate world_both_desired))
     = [PutBucketLogging input]
     /\ fst (LoggingConfigurationClient.CreateOrUpdate world_both_desired) = Return None)
  /\ (exists input,
        requests (snd (SSEConfigurationClient.CreateOrUpdate world_both_desired))
        = [PutBucketEncryption input]
        /\ fst (SSEConfigurationClient.CreateOrUpdate world_both_desired) = Return None).
Proof.
  destruct (CreateOrUpdate_sends_one_put world_both_desired) as [Hlogging Hencryption].
  split.
  - destruct (Hlogging logs_with_grant eq_refl) as (input & Hinput & Hrequests & _ & Hok).
    exists input. split; [exact Hrequests|]. apply Hok.
    injection Hinput as <-. reflexivity.
  - destruct (Hencryption (sse_of [rule_aes; rule_kms]) eq_refl)
      as (input & Hinput & Hrequests & _ & Hok).
    exists input. split; [exact Hrequests|]. apply Hok.
    injection Hinput as <-. reflexivity.
Defined.

Lemma LateInitialize_error_is_read_error_sample :
  fst (LoggingConfigurationClient.LateInitialize world_read_denied)
  = Return (Some (Wrapped access_denied loggingGetFailed))
  /\ fst (SSEConfigurationClient.LateInitialize world_read_denied)
     = Return (Some (Wrapped access_denied sseGetFailed))
  /\ bucket (snd (LoggingConfigurationClient.LateInitialize world_read_denied))
     = bucket world_read_denied
  /\ bucket (snd (SSEConfigurationClient.LateInitialize world_read_denied))
     = bucket world_read_denied.
Proof.
  destruct (LateInitialize_error_is_read_error world_read_denied
              (Wrapped access_denied loggingGetFailed)) as (Hlogging & _ & Hkept & _).
  destruct (LateInitialize_error_is_read_error world_read_denied
              (Wrapped access_denied sseGetFailed)) as (_ & Hencryption & _ & Hkept').
  split; [apply Hlogging; by exists access_denied|].
  split; [apply Hencryption; by exists access_denied|].
  split; [by apply (Hkept access_denied)|by apply (Hkept' access_denied)].
Defined.
